(** * Session tracking and identity resolution of agent-mail-cli

    A shallow embedding of the local session layer of
    [src/agent_mail_cli/cli.py]: the session files under
    [~/.config/agent-mail-cli/sessions/<project hash>/<agent>.json], the
    process ancestry walk, conflict detection, identity resolution, the
    commands [session heartbeat] and [register], and the listing of
    [session status].

    Python code runs here in a state-and-exception monad over a [World]
    (the session directories, the number of clock readings taken so far, what
    was printed, the remote calls made).  Everything the code asks of the
    Python library and of the operating system is a field of a [Host]. *)

From Stdlib Require Import ZArith List String Ascii Bool Lia Sorted.
From stdpp Require Import base option gmap strings list pretty.

Set Warnings "-register-all".
Open Scope string_scope.
Open Scope Z_scope.

(** ** Data *)

(** What [json.loads] returns.  Numbers with a fraction or an exponent
    (Python floats) are outside the model.  A dict keeps its items in
    order; [dict_get] finds the first item with the key. *)
Inductive json :=
| JNull
| JBool (b : bool)
| JInt (n : Z)
| JStr (s : string)
| JList (items : list json)
| JDict (fields : list (string * json)).

Abbreviation dict := (list (string * json)).

Fixpoint dict_get (k : string) (d : dict) : option json :=
  match d with
  | [] => None
  | (k', v) :: d' => if String.eqb k k' then Some v else dict_get k d'
  end.

(** [d[k] = v]: replaces the value of an existing key in place, appends a new
    key at the end. *)
Fixpoint dict_set (k : string) (v : json) (d : dict) : dict :=
  match d with
  | [] => [(k, v)]
  | (k', v') :: d' =>
      if String.eqb k k' then (k, v) :: d' else (k', v') :: dict_set k v d'
  end.

(** Python truthiness of a JSON value. *)
Definition truthy (v : json) : bool :=
  match v with
  | JNull => false
  | JBool b => b
  | JInt n => negb (n =? 0)
  | JStr s => negb (String.eqb s "")
  | JList l => match l with [] => false | _ => true end
  | JDict d => match d with [] => false | _ => true end
  end.

(** [v == n] for a Python int [n] ([True == 1] and [False == 0] hold in
    Python). *)
Definition eq_int (v : json) (n : Z) : bool :=
  match v with
  | JInt m => m =? n
  | JBool b => Z.b2z b =? n
  | _ => false
  end.

(** A [datetime]: aware ones as microseconds since the epoch in UTC, naive
    ones as microseconds of wall time. *)
Inductive datetime :=
| Aware (utc : Z)
| Naive (wall : Z).

(** The exceptions that occur.  [Exit code] is [typer.Exit(code)]. *)
Inductive exn :=
| OSError
| JSONDecodeError
| ValueError
| TypeError
| AttributeError
| KeyError
| OverflowError
| AgentMailError (message : string)
| TransportError (message : string)
| Exit (code : Z).

(** Outcome of running a piece of code: a value, an exception, or [Hang]
    when the fuel given to a loop ran out before the loop ended. *)
Inductive res (A : Type) :=
| Ok (a : A)
| Raise (e : exn)
| Hang.
Arguments Ok {A} a.
Arguments Raise {A} e.
Arguments Hang {A}.

(** What is in a file: text that [json.loads] rejects, or the text of a
    JSON document, kept as the document. [json.dumps] writes a
    [JsonText]. *)
Inductive file_text :=
| NotJson (raw : string)
| JsonText (doc : json).

(** Outcome of [subprocess.run(["ps", "-o", "ppid=", "-p", str(pid)])]
    followed by [int(result.stdout.strip())]. *)
Inductive ps_outcome :=
| PsRaises                (* subprocess.run itself raises *)
| PsFails                 (* non-zero return code *)
| PsGarbled               (* return code 0, stdout is not an integer *)
| PsParent (ppid : Z).    (* return code 0, stdout is this integer *)

Inductive fs_call := Mkdir | ReadText | WriteText | Unlink.

(** The Python library and the operating system, as seen during one
    run of the program. *)
Record Host := {
  (* hashlib.sha256(s.encode()).hexdigest()[:12] *)
  sha256_hex12 : string -> string;
  (* datetime.fromisoformat; None: ValueError *)
  fromisoformat : string -> option datetime;
  (* isoformat() of an aware UTC datetime *)
  isoformat : Z -> string;
  (* int(s) of a str; None: ValueError *)
  int_of_str : string -> option Z;
  (* the k-th reading of datetime.now(timezone.utc) *)
  utcnow : nat -> Z;
  getpid : Z;
  getppid : Z;
  ps_ppid : Z -> ps_outcome;
  (* shutil.which("ps") finds something *)
  which_ps : bool;
  (* os.kill(pid, 0) *)
  kill0 : Z -> res unit;
  environ : string -> option string;
  (* the call on <directory>/<file> raises OSError before doing anything *)
  fs_fault : fs_call -> string -> string -> bool
}.

(** The remote calls the program makes. *)
Inductive rpc_call :=
| CallEnsureProject (project_key : string)
| CallListAgents (project_key : string)
| CallRegisterAgent (project_key program model : string)
                    (name : option string) (task : string).

(** An [AgentMailClient]: what each call answers. *)
Record Client := {
  ensure_project : string -> res json;
  list_agents : string -> res (list json);
  register_agent :
    string -> string -> string -> option string -> string -> res dict
}.

(** What the program prints; the markup and the hint lines are left out. *)
Inductive message :=
| MsgNoActiveSession (agent : string)
| MsgSessionExtended (agent : string) (ttl : Z)
| MsgSessionConflict (agent : string) (pid : option json) (expires_in : string)
| MsgUseForce
| MsgResumingAs (agent : string)
| MsgNoPreviousAgents
| MsgRegistered (agent : string) (is_new : bool) (ttl : Z)
| MsgError (e : exn).

Inductive printed :=
| OutJson (j : json)          (* print(json.dumps(...)) *)
| OutText (m : message)       (* console.print *)
| ErrText (m : message).      (* err_console.print *)

(** The state the program changes.  [dirs] maps the name of a directory
    under SESSIONS_DIR to its files. *)
Record World := {
  dirs : gmap string (gmap string file_text);
  reads : nat;
  out : list printed;
  calls : list rpc_call
}.

Definition with_dirs (w : World) (d : gmap string (gmap string file_text))
    : World :=
  {| dirs := d; reads := reads w; out := out w; calls := calls w |}.

Definition tick (w : World) : World :=
  {| dirs := dirs w; reads := S (reads w); out := out w; calls := calls w |}.

Definition printing (w : World) (p : printed) : World :=
  {| dirs := dirs w; reads := reads w; out := out w ++ [p];
     calls := calls w |}.

Definition calling (w : World) (c : rpc_call) : World :=
  {| dirs := dirs w; reads := reads w; out := out w;
     calls := calls w ++ [c] |}.

(** ** The monad *)

Definition M (A : Type) : Type := World -> res A * World.

Definition ret {A} (a : A) : M A := fun w => (Ok a, w).

Definition bind {A B} (c : M A) (k : A -> M B) : M B :=
  fun w =>
    match c w with
    | (Ok a, w') => k a w'
    | (Raise e, w') => (Raise e, w')
    | (Hang, w') => (Hang, w')
    end.

Definition raise {A} (e : exn) : M A := fun w => (Raise e, w).

(** [try: body except <caught>: handler] *)
Definition try_except {A} (body : M A) (caught : exn -> bool)
    (handler : exn -> M A) : M A :=
  fun w =>
    match body w with
    | (Raise e, w') => if caught e then handler e w' else (Raise e, w')
    | r => r
    end.

Definition lift {A} (r : res A) : M A := fun w => (r, w).

(** The notations [x ← c; k] and [c;; k] of stdpp are used for [bind]. *)
#[global] Instance M_ret : MRet M := @ret.
#[global] Instance M_bind : MBind M := fun A B k c => bind c k.

(** ** Strings and paths *)

(** [s.replace("Z", "+00:00")] *)
Fixpoint replace_Z (s : string) : string :=
  match s with
  | EmptyString => EmptyString
  | String c r =>
      if Ascii.eqb c "Z"%char then String.append "+00:00" (replace_Z r)
      else String c (replace_Z r)
  end.

(** [name.rfind(".")] *)
Fixpoint rfind_dot (name : string) : option nat :=
  match name with
  | EmptyString => None
  | String c r =>
      match rfind_dot r with
      | Some i => Some (S i)
      | None => if Ascii.eqb c "."%char then Some 0%nat else None
      end
  end.

(** [PurePath.stem]: the name without its last suffix; a name that starts
    with its only dot, or ends with a dot, has no suffix. *)
Definition stem (name : string) : string :=
  match rfind_dot name with
  | Some i =>
      if ((0 <? i) && (i <? String.length name - 1))%nat
      then substring 0 i name else name
  | None => name
  end.

(** A name that the pattern [*.json] matches. *)
Definition is_json_name (name : string) : bool :=
  let n := String.length name in
  ((5 <=? n)%nat && String.eqb (substring (n - 5) 5 name) ".json").

(** A stable sort: [x] is put in front of the first [y] with [le x y].
    Python's [sorted] and [list.sort] are stable, so on keys that are
    totally ordered they give this list. *)
Fixpoint insert_by {A} (le : A -> A -> bool) (x : A) (l : list A) : list A :=
  match l with
  | [] => [x]
  | y :: l' => if le x y then x :: y :: l' else y :: insert_by le x l'
  end.

Fixpoint sort_by {A} (le : A -> A -> bool) (l : list A) : list A :=
  match l with
  | [] => []
  | x :: l' => insert_by le x (sort_by le l')
  end.

(** ** Dates *)

(** [datetime.min] and [datetime.max] as microseconds since the epoch, and
    the largest number of days of a [timedelta]. *)
Definition DATETIME_MIN : Z := -62135596800000000.
Definition DATETIME_MAX : Z := 253402300799999999.
Definition TIMEDELTA_MAX_DAYS : Z := 999999999.

(** [timedelta(seconds=n)], in microseconds. *)
Definition timedelta_seconds (n : Z) : res Z :=
  if (Z.abs (n / 86400) <=? TIMEDELTA_MAX_DAYS) then Ok (n * 1000000)
  else Raise OverflowError.

(** [t + delta] for an aware [t]. *)
Definition datetime_add (t delta : Z) : res Z :=
  if (DATETIME_MIN <=? t + delta) && (t + delta <=? DATETIME_MAX)
  then Ok (t + delta) else Raise OverflowError.

(** ** The file system, the clock, the terminal *)

Section Program.
Context (h : Host).

Definition get_world : M World := fun w => (Ok w, w).

Definition set_dirs (d : gmap string (gmap string file_text)) : M unit :=
  fun w => (Ok tt, with_dirs w d).

(** What is at [dir/name], if anything. *)
Definition file_at (w : World) (dir name : string) : option file_text :=
  d ← dirs w !! dir; d !! name.

(** [Path.exists()] of a file. *)
Definition path_exists (dir name : string) : M bool :=
  w ← get_world; mret (bool_decide (is_Some (file_at w dir name))).

(** [Path.exists()] of a directory. *)
Definition dir_exists (dir : string) : M bool :=
  w ← get_world; mret (bool_decide (is_Some (dirs w !! dir))).

(** [Path.mkdir(parents=True, exist_ok=True)] *)
Definition mkdir (dir : string) : M unit :=
  if fs_fault h Mkdir dir "" then raise OSError
  else
    w ← get_world;
    match dirs w !! dir with
    | Some _ => mret tt
    | None => set_dirs (<[dir := ∅]> (dirs w))
    end.

(** [Path.read_text()]; a missing file is FileNotFoundError, an OSError. *)
Definition read_text (dir name : string) : M file_text :=
  if fs_fault h ReadText dir name then raise OSError
  else
    w ← get_world;
    match file_at w dir name with
    | Some t => mret t
    | None => raise OSError
    end.

(** [Path.write_text(text)]; a missing directory is FileNotFoundError. *)
Definition write_text (dir name : string) (t : file_text) : M unit :=
  if fs_fault h WriteText dir name then raise OSError
  else
    w ← get_world;
    match dirs w !! dir with
    | Some d => set_dirs (<[dir := <[name := t]> d]> (dirs w))
    | None => raise OSError
    end.

(** [Path.unlink(missing_ok)] *)
Definition unlink (missing_ok : bool) (dir name : string) : M unit :=
  if fs_fault h Unlink dir name then raise OSError
  else
    w ← get_world;
    match dirs w !! dir with
    | Some d =>
        match d !! name with
        | Some _ => set_dirs (<[dir := delete name d]> (dirs w))
        | None => if missing_ok then mret tt else raise OSError
        end
    | None => if missing_ok then mret tt else raise OSError
    end.

(** The names in the directory that end in [.json], in the order of
    Python strings. *)
Definition json_names (w : World) (dir : string) : list string :=
  sort_by String.leb
    (List.filter is_json_name
       (fst <$> map_to_list (default ∅ (dirs w !! dir)))).

(** [sorted(dir.glob("*.json"))].  ([session_status] takes the names
    unsorted; there the order is the operating system's, and this order
    stands for it.) *)
Definition glob_json (dir : string) : M (list string) :=
  w ← get_world; mret (json_names w dir).

(** [datetime.now(timezone.utc)] *)
Definition datetime_now : M Z :=
  fun w => (Ok (utcnow h (reads w)), tick w).

Definition emit (p : printed) : M unit :=
  fun w => (Ok tt, printing w p).

Definition log_call (c : rpc_call) : M unit :=
  fun w => (Ok tt, calling w c).

(** ** Local session tracking *)

Definition _project_hash (project_key : string) : string :=
  sha256_hex12 h project_key.

(** [SESSIONS_DIR / _project_hash(project_key) / f"{agent_name}.json"], as
    the directory under SESSIONS_DIR and the file name.  Agent names are
    taken to be single path components (no [/]). *)
Definition _session_file (project_key agent_name : string)
    : string * string :=
  (_project_hash project_key, String.append agent_name ".json").

Definition json_loads (t : file_text) : M json :=
  match t with
  | NotJson _ => raise JSONDecodeError
  | JsonText doc => mret doc
  end.

(** The receiver of [data.get(...)]: only a dict has the method. *)
Definition as_dict (data : json) : M dict :=
  match data with
  | JDict d => mret d
  | _ => raise AttributeError
  end.

(** [datetime.fromisoformat(v.replace("Z", "+00:00"))]: only a str has
    [replace]. *)
Definition parse_iso (v : json) : M datetime :=
  match v with
  | JStr s =>
      match fromisoformat h (replace_Z s) with
      | Some t => mret t
      | None => raise ValueError
      end
  | _ => raise AttributeError
  end.

(** [t < now] and [t - now] for an aware [now]: a naive [t] is a
    TypeError. *)
Definition dt_lt (t : datetime) (now : Z) : M bool :=
  match t with
  | Aware u => mret (u <? now)
  | Naive _ => raise TypeError
  end.

Definition dt_sub (t : datetime) (now : Z) : M Z :=
  match t with
  | Aware u => mret (u - now)
  | Naive _ => raise TypeError
  end.

(** [except (json.JSONDecodeError, ValueError, OSError)] *)
Definition read_session_caught (e : exn) : bool :=
  match e with
  | JSONDecodeError | ValueError | OSError => true
  | _ => false
  end.

Definition _read_session (project_key agent_name : string)
    : M (option dict) :=
  let '(dir, name) := _session_file project_key agent_name in
  ex ← path_exists dir name;
  if negb ex then mret None
  else
    try_except
      (t ← read_text dir name;
       data ← json_loads t;
       d ← as_dict data;
       expires_at ← parse_iso (default (JStr "") (dict_get "expires_at" d));
       now ← datetime_now;
       expired ← dt_lt expires_at now;
       if expired : bool then unlink true dir name;; mret None
       else mret (Some d))
      read_session_caught
      (fun _ => mret None).

(** The pid written into the session file: the grandparent when [ps]
    reports one above 1. *)
Definition stable_pid : Z :=
  match ps_ppid h (getppid h) with
  | PsRaises => getppid h
  | PsFails => getpid h
  | PsGarbled => getppid h
  | PsParent grandparent =>
      if 1 <? grandparent then grandparent else getpid h
  end.

(** The dict that [_write_session] builds first. *)
Definition new_session (project_key agent_name : string) (now expires : Z)
    (pid : Z) : dict :=
  [("agent", JStr agent_name);
   ("project", JStr project_key);
   ("started_at", JStr (isoformat h now));
   ("expires_at", JStr (isoformat h expires));
   ("pid", JInt pid)].

(** [if existing: data["started_at"] = existing.get("started_at",
    data["started_at"])] *)
Definition carry_started_at (existing : option dict) (data : dict) : dict :=
  match existing with
  | Some (item :: items) =>
      dict_set "started_at"
        (default (default JNull (dict_get "started_at" data))
           (dict_get "started_at" (item :: items)))
        data
  | _ => data
  end.

Definition _write_session (project_key agent_name : string)
    (ttl_seconds : Z) : M dict :=
  let '(dir, name) := _session_file project_key agent_name in
  mkdir dir;;
  now ← datetime_now;
  let pid := stable_pid in
  delta ← lift (timedelta_seconds ttl_seconds);
  expires ← lift (datetime_add now delta);
  let data := new_session project_key agent_name now expires pid in
  existing ← _read_session project_key agent_name;
  let data := carry_started_at existing data in
  write_text dir name (JsonText (JDict data));;
  mret data.

Definition _clear_session (project_key agent_name : string) : M bool :=
  let '(dir, name) := _session_file project_key agent_name in
  ex ← path_exists dir name;
  if ex : bool then unlink false dir name;; mret true
  else mret false.

(** [os.kill(pid, 0)]: the pid has to be an int. *)
Definition os_kill0 (pid : json) : M unit :=
  match pid with
  | JInt n => lift (kill0 h n)
  | JBool b => lift (kill0 h (Z.b2z b))
  | _ => raise TypeError
  end.

Definition is_OSError (e : exn) : bool :=
  match e with OSError => true | _ => false end.

Definition _check_session_conflict (project_key agent_name : string)
    : M (option dict) :=
  session ← _read_session project_key agent_name;
  match session with
  | None | Some [] => mret None
  | Some s =>
      let pid := default JNull (dict_get "pid" s) in
      if eq_int pid (getpid h) then mret None
      else if truthy pid then
        stale ← try_except (os_kill0 pid;; mret false) is_OSError
                  (fun _ => _clear_session project_key agent_name;;
                            mret true);
        if stale : bool then mret None else mret (Some s)
      else mret (Some s)
  end.

(** [except (ValueError, TypeError)]; JSONDecodeError is a ValueError. *)
Definition format_caught (e : exn) : bool :=
  match e with
  | ValueError | JSONDecodeError | TypeError => true
  | _ => false
  end.

(** The text for a difference of [delta] microseconds.
    [int(delta.total_seconds())] is the number of whole seconds, rounded
    towards zero (exact for the float as long as the difference is below
    2^53 microseconds). *)
Definition format_remaining (delta : Z) : string :=
  let seconds := Z.quot delta 1000000 in
  if seconds <? 60 then String.append (pretty seconds) "s"
  else if seconds <? 3600 then String.append (pretty (seconds / 60)) "m"
  else String.append (pretty (seconds / 3600)) "h".

Definition _format_session_expiry (session : dict) : M string :=
  try_except
    (expires_at ←
       parse_iso (default (JStr "") (dict_get "expires_at" session));
     now ← datetime_now;
     delta ← dt_sub expires_at now;
     mret (format_remaining delta))
    format_caught
    (fun _ => mret "?").

(** ** Process ancestry *)

(** The loop of [_pid_in_ancestry]; each call of [ps] takes one unit of
    fuel. *)
Fixpoint ancestry_walk (fuel : nat) (target_pid current : Z) : res bool :=
  if negb (1 <? current) then Ok false
  else if current =? target_pid then Ok true
  else
    match fuel with
    | O => Hang
    | S fuel' =>
        match ps_ppid h current with
        | PsRaises => Ok false
        | PsFails => Ok false
        | PsGarbled => Ok false
        | PsParent parent => ancestry_walk fuel' target_pid parent
        end
    end.

Definition _pid_in_ancestry (fuel : nat) (target_pid : Z) : res bool :=
  if target_pid <=? 1 then Ok false
  else if negb (which_ps h) then Ok false
  else ancestry_walk fuel target_pid (getpid h).

(** [int(v)] for a JSON value. *)
Definition py_int (v : json) : res Z :=
  match v with
  | JInt n => Ok n
  | JBool b => Ok (Z.b2z b)
  | JStr s =>
      match int_of_str h s with
      | Some n => Ok n
      | None => Raise ValueError
      end
  | _ => Raise TypeError
  end.

(** [except (OSError, json.JSONDecodeError)] *)
Definition detect_caught (e : exn) : bool :=
  match e with
  | OSError | JSONDecodeError => true
  | _ => false
  end.

(** The [for] loop of [_detect_agent_from_session]. *)
Fixpoint detect_loop (fuel : nat) (dir : string) (session_files : list string)
    : M (option string) :=
  match session_files with
  | [] => mret None
  | session_file :: rest =>
      loaded ← try_except
                 (t ← read_text dir session_file;
                  data ← json_loads t;
                  mret (Some data))
                 detect_caught
                 (fun _ => mret None);
      match loaded with
      | None => detect_loop fuel dir rest
      | Some data =>
          d ← as_dict data;
          let v := default JNull (dict_get "pid" d) in
          pid ← lift (py_int (if truthy v then v else JInt 0));
          found ← lift (_pid_in_ancestry fuel pid);
          if found : bool then mret (Some (stem session_file))
          else detect_loop fuel dir rest
      end
  end.

Definition _detect_agent_from_session (fuel : nat) (project_key : string)
    : M (option string) :=
  let sessions_dir := _project_hash project_key in
  ex ← dir_exists sessions_dir;
  if negb ex then mret None
  else
    session_files ← glob_json sessions_dir;
    match session_files with
    | [] => mret None
    | [session_file] => mret (Some (stem session_file))
    | _ => detect_loop fuel sessions_dir session_files
    end.

(** ** The remote fallback *)

(** The condition of the list comprehension of [_find_resumable_agent];
    [startswith] needs a str. *)
Definition is_active (a : json) : M bool :=
  d ← as_dict a;
  match default (JStr "") (dict_get "name" d) with
  | JStr name =>
      if String.prefix "Deleted-" name then mret false
      else
        mret (match dict_get "contact_policy" d with
              | Some (JStr policy) => negb (String.eqb policy "block_all")
              | _ => true
              end)
  | _ => raise AttributeError
  end.

Fixpoint active_agents (agents : list json) : M (list dict) :=
  match agents with
  | [] => mret []
  | a :: rest =>
      keep ← is_active a;
      kept ← active_agents rest;
      mret (match a with
            | JDict d => if keep : bool then d :: kept else kept
            | _ => kept
            end)
  end.

Definition ts_key (a : dict) : json :=
  default (JStr "") (dict_get "last_active_ts" a).

Definition is_str (v : json) : bool :=
  match v with JStr _ => true | _ => false end.

Definition is_num (v : json) : bool :=
  match v with JInt _ | JBool _ => true | _ => false end.

Definition num_of (v : json) : Z :=
  match v with JInt n => n | JBool b => Z.b2z b | _ => 0 end.

(** [x <= y] on two strs or on two numbers. *)
Definition key_le (x y : json) : bool :=
  match x, y with
  | JStr s, JStr t => String.leb s t
  | _, _ => is_num x && is_num y && (num_of x <=? num_of y)
  end.

(** [l.sort(key=lambda a: a.get("last_active_ts", ""), reverse=True)].
    A list of fewer than two items is not compared at all.  Otherwise the
    keys have to be all strs or all numbers: a key of another kind makes the
    first comparison that meets it raise TypeError.  (Keys that are arrays,
    which Python would compare item by item, are outside the model and
    raise here as well.) *)
Definition sort_recent (l : list dict) : res (list dict) :=
  match l with
  | [] | [_] => Ok l
  | _ =>
      if forallb is_str (map ts_key l) || forallb is_num (map ts_key l)
      then Ok (sort_by (fun a b => key_le (ts_key b) (ts_key a)) l)
      else Raise TypeError
  end.

Definition _find_resumable_agent (client : Client) (project_key : string)
    : M (option dict) :=
  log_call (CallListAgents project_key);;
  agents ← lift (list_agents client project_key);
  active ← active_agents agents;
  match active with
  | [] => mret None
  | _ =>
      sorted ← lift (sort_recent active);
      mret (head sorted)
  end.

(** ** Identity resolution *)

(** [a or b] on optional strs. *)
Definition py_or (a b : option string) : option string :=
  match a with
  | Some s => if String.eqb s "" then b else a
  | None => b
  end.

Definition nonempty (a : option string) : bool :=
  match a with
  | Some s => negb (String.eqb s "")
  | None => false
  end.

(** [d.get("name")] of an agent that went through [active_agents]: a str
    or nothing. *)
Definition get_name (d : dict) : option string :=
  match dict_get "name" d with
  | Some (JStr s) => Some s
  | _ => None
  end.

Definition _resolve_agent_name (fuel : nat) (project_key : string)
    (agent : option string) (client : option Client)
    : M (option string * option string) :=
  if nonempty agent then mret (agent, None)
  else
    let env_agent :=
      py_or (environ h "AGENT_MAIL_AGENT") (environ h "AGENT_NAME") in
    if nonempty env_agent then mret (env_agent, Some "env")
    else
      session_agent ← _detect_agent_from_session fuel project_key;
      if nonempty session_agent then mret (session_agent, Some "session")
      else
        match client with
        | Some c =>
            recent ← _find_resumable_agent c project_key;
            match recent with
            | Some (item :: items) =>
                mret (get_name (item :: items), Some "recent")
            | _ => mret (None, None)
            end
        | None => mret (None, None)
        end.

(** ** Commands *)

(** [handle_error(e)]: prints the error, then [raise typer.Exit(1)]. *)
Definition handle_error {A} (e : exn) : M A :=
  emit (ErrText (MsgError e));;
  raise (Exit 1).

Definition is_Exit (e : exn) : bool :=
  match e with Exit _ => true | _ => false end.

(** [try: body  except typer.Exit: raise  except Exception as e:
    handle_error(e)] *)
Definition command {A} (body : M A) : M A :=
  try_except body (fun e => negb (is_Exit e)) handle_error.

(** [agent-mail session heartbeat AGENT --ttl TTL], with the project
    already resolved to its key. *)
Definition session_heartbeat (agent project_key : string) (ttl : Z)
    (as_json : bool) : M unit :=
  command
    (session ← _read_session project_key agent;
     match session with
     | None | Some [] =>
         (if as_json
          then emit (OutJson (JDict [("error", JStr "no_session");
                                     ("agent", JStr agent)]))
          else emit (ErrText (MsgNoActiveSession agent)));;
         raise (Exit 1)
     | Some _ =>
         updated ← _write_session project_key agent ttl;
         if as_json then emit (OutJson (JDict updated))
         else emit (OutText (MsgSessionExtended agent ttl))
     end).

(** The loop of [session_status] without an agent: the sessions of the
    project that [_read_session] returns. *)
Fixpoint read_sessions (project_key : string) (session_files : list string)
    : M (list dict) :=
  match session_files with
  | [] => mret []
  | session_file :: rest =>
      session ← _read_session project_key (stem session_file);
      sessions ← read_sessions project_key rest;
      mret (match session with
            | Some (item :: items) => (item :: items) :: sessions
            | _ => sessions
            end)
  end.

Definition session_status_sessions (project_key : string) : M (list dict) :=
  let sessions_dir := _project_hash project_key in
  ex ← dir_exists sessions_dir;
  if ex : bool then
    session_files ← glob_json sessions_dir;
    read_sessions project_key session_files
  else mret [].

(** The effects of [_format_time_ago(ts)]: the clock is read once the
    timestamp has been parsed; when anything fails the text is cut from
    [ts] instead, which needs a str unless [ts] is falsy.  The text itself
    is not kept. *)
Definition _format_time_ago (ts : json) : M unit :=
  try_except
    (t ← parse_iso ts;
     now ← datetime_now;
     _ ← dt_sub t now;
     mret tt)
    (fun _ => true)
    (fun _ => if truthy ts && negb (is_str ts) then raise TypeError
              else mret tt).

(** [result.get("name", "?")]; the server answers with a str name. *)
Definition result_name (result : dict) : string :=
  match dict_get "name" result with
  | Some (JStr s) => s
  | _ => "?"
  end.

(** [agent-mail register], with the project already resolved to its key
    (the one-time note about the project is left out). *)
Definition register (client : Client) (program model : string)
    (name as_agent : option string) (resume force : bool) (ttl : Z)
    (task : string) (project_key : string) (as_json : bool) : M unit :=
  command
    (log_call (CallEnsureProject project_key);;
     _ ← lift (ensure_project client project_key);
     let effective_name := py_or as_agent name in
     effective_name ←
       (if resume && negb (nonempty effective_name) then
          recent ← _find_resumable_agent client project_key;
          match recent with
          | Some (item :: items) =>
              match dict_get "name" (item :: items) with
              | Some (JStr s) =>
                  (if as_json then mret tt
                   else _format_time_ago (ts_key (item :: items));;
                        emit (OutText (MsgResumingAs s)));;
                  mret (Some s)
              | Some _ => raise AttributeError
              | None => raise KeyError
              end
          | _ =>
              (if as_json then mret tt
               else emit (OutText MsgNoPreviousAgents));;
              mret effective_name
          end
        else mret effective_name);
     (if nonempty effective_name && negb force then
        let agent := default "" effective_name in
        conflict ← _check_session_conflict project_key agent;
        match conflict with
        | Some (item :: items) =>
            let c := item :: items in
            expires_in ← _format_session_expiry c;
            (if as_json then
               emit (OutJson (JDict
                       [("error", JStr "session_conflict");
                        ("agent", JStr agent);
                        ("conflict_pid", default JNull (dict_get "pid" c));
                        ("expires_in", JStr expires_in)]))
             else
               emit (ErrText (MsgSessionConflict agent (dict_get "pid" c)
                                expires_in));;
               emit (ErrText MsgUseForce));;
            raise (Exit 1)
        | _ => mret tt
        end
      else mret tt);;
     log_call (CallRegisterAgent project_key program model effective_name
                 task);;
     result ← lift (register_agent client project_key program model
                      effective_name task);
     let agent_name := result_name result in
     _ ← _write_session project_key agent_name ttl;
     if as_json then
       emit (OutJson (JDict (dict_set "session_ttl" (JInt ttl) result)))
     else
       emit (OutText (MsgRegistered agent_name
                        (match effective_name with
                         | None => true
                         | Some _ => false
                         end) ttl))).

End Program.


(** * The heartbeat hook

    [hooks/session_heartbeat.py] finds the agent of the running session
    in the same session files, with its own walk of the process tree. *)

Section Hook.
Context (h : Host).

(** [_get_ppid(pid)]: the parent that [ps] reports, 0 when there is no [ps]
    or when it fails.  (What [subprocess.run] raises is taken to be an
    OSError, the one exception caught there.) *)
Definition _get_ppid (pid : Z) : Z :=
  if negb (which_ps h) then 0
  else
    match ps_ppid h pid with
    | PsRaises => 0
    | PsFails => 0
    | PsGarbled => 0
    | PsParent ppid => ppid
    end.

(** [_is_ancestor(candidate_pid, current_pid)]; each call of [_get_ppid]
    takes one unit of fuel. *)
Fixpoint _is_ancestor (fuel : nat) (candidate_pid check_pid : Z) : res bool :=
  if negb (1 <? check_pid) then Ok false
  else if check_pid =? candidate_pid then Ok true
  else
    match fuel with
    | O => Hang
    | S fuel' =>
        let check_pid := _get_ppid check_pid in
        if check_pid =? 0 then Ok false
        else _is_ancestor fuel' candidate_pid check_pid
    end.



End Hook.

(** * The client

    [src/agent_mail_cli/client.py]: one JSON-RPC call of a tool of the
    server, and what [call_tool] makes of the response. *)

Module AgentMailClient.

(** What a call raises: [AgentMailError(message, code, data)], an
    exception of the HTTP exchange or of the Python code that takes the
    response apart, or IndexError. *)
Inductive failure :=
| MailError (message code data : json)
| Python (e : exn)
| IndexError.

Inductive outcome (A : Type) :=
| Returned (a : A)
| Raised (f : failure).
Arguments Returned {A} a.
Arguments Raised {A} f.

#[global] Instance outcome_ret : MRet outcome := @Returned.
#[global] Instance outcome_bind : MBind outcome :=
  fun A B k c =>
    match c with
    | Returned a => k a
    | Raised f => Raised f
    end.

(** [key in v] for a str [key]: a key of a dict, an item of a list, a
    substring of a str. *)
Definition py_in (key : string) (v : json) : outcome bool :=
  match v with
  | JDict d =>
      Returned (match dict_get key d with Some _ => true | None => false end)
  | JList items =>
      Returned (existsb (fun x => match x with
                                  | JStr s => String.eqb s key
                                  | _ => false
                                  end) items)
  | JStr s =>
      Returned (match index 0 key s with Some _ => true | None => false end)
  | _ => Raised (Python TypeError)
  end.

(** [v[key]] for a str [key] *)
Definition py_item (key : string) (v : json) : outcome json :=
  match v with
  | JDict d =>
      match dict_get key d with
      | Some x => Returned x
      | None => Raised (Python KeyError)
      end
  | _ => Raised (Python TypeError)
  end.

(** [v.get(key, dflt)] *)
Definition py_get (key : string) (dflt : json) (v : json) : outcome json :=
  match v with
  | JDict d => Returned (default dflt (dict_get key d))
  | _ => Raised (Python AttributeError)
  end.

(** [v[0]] *)
Definition py_first (v : json) : outcome json :=
  match v with
  | JList (x :: _) => Returned x
  | JList [] => Raised IndexError
  | JStr (String c _) => Returned (JStr (String c ""))
  | JStr "" => Raised IndexError
  | JDict _ => Raised (Python KeyError)
  | _ => Raised (Python TypeError)
  end.

(** [a or b] *)
Definition or_json (a b : json) : json := if truthy a then a else b.

(** [mcp_result["content"][0].get("text", "")] *)
Definition content_text (content : json) : outcome json :=
  first ← py_first content; py_get "text" (JStr "") first.

(** The payload of the request. *)
Definition request (id : Z) (tool_name : string) (arguments : option dict)
    : json :=
  JDict [("jsonrpc", JStr "2.0");
         ("id", JInt id);
         ("method", JStr "tools/call");
         ("params",
          JDict [("name", JStr tool_name);
                 ("arguments", JDict (default [] arguments))])].

Section Library.
(** [str()] of a list or of a dict, [str.strip()], and [json.loads] of a
    str ([None]: JSONDecodeError). *)
Context (repr : json -> string) (strip : string -> string)
        (loads : string -> option json).

(** [str(v)] *)
Definition py_str (v : json) : string :=
  match v with
  | JNull => "None"
  | JBool true => "True"
  | JBool false => "False"
  | JInt n => pretty n
  | JStr s => s
  | _ => repr v
  end.

(** The message of the error that a result with [isError] stands for. *)
Definition error_message (tool_name : string) (mcp_result : dict) : string :=
  let message :=
    match dict_get "structuredContent" mcp_result with
    | Some (JDict structured) =>
        py_str (or_json
                  (or_json (default JNull (dict_get "message" structured))
                           (default JNull (dict_get "error" structured)))
                  (JStr ""))
    | _ => ""
    end in
  let content := default JNull (dict_get "content" mcp_result) in
  let message :=
    if String.eqb message "" && truthy content then
      match content_text content with
      | Returned text => strip (py_str text)
      | Raised _ => ""
      end
    else message in
  if String.eqb message ""
  then String.append "Tool '" (String.append tool_name "' failed")
  else message.

(** [call_tool] from the decoded response on. *)
Definition tool_result (tool_name : string) (result : json) : outcome json :=
  has_error ← py_in "error" result;
  if has_error : bool then
    error ← py_item "error" result;
    message ← py_get "message" (JStr "Unknown error") error;
    code ← py_get "code" JNull error;
    data ← py_get "data" JNull error;
    Raised (MailError message code data)
  else
    mcp_result ← py_get "result" (JDict []) result;
    match mcp_result with
    | JDict m =>
        if truthy (default JNull (dict_get "isError" m)) then
          Raised (MailError (JStr (error_message tool_name m)) JNull
                    mcp_result)
        else
          match dict_get "structuredContent" m with
          | Some structured =>
              match structured with
              | JDict s =>
                  match dict_get "result" s with
                  | Some v => Returned v
                  | None => Returned structured
                  end
              | _ => Returned structured
              end
          | None =>
              let content := default JNull (dict_get "content" m) in
              if truthy content then
                text ← content_text content;
                if negb (truthy text) then Returned (JDict [])
                else
                  match text with
                  | JStr t =>
                      match loads t with
                      | Some v => Returned v
                      | None => Returned text
                      end
                  | _ => Raised (Python TypeError)
                  end
              else Returned mcp_result
          end
    | _ => Returned mcp_result
    end.

(** [call_tool(tool_name, arguments)] of a client whose [_request_id] is
    [request_id]; the new [_request_id] comes with the outcome.  [post] is
    the HTTP exchange: what [response.json()] gives, or the exception
    raised on the way. *)
Definition call_tool (post : json -> exn + json) (request_id : Z)
    (tool_name : string) (arguments : option dict) : outcome json * Z :=
  let id := request_id + 1 in
  (match post (request id tool_name arguments) with
   | inr result => tool_result tool_name result
   | inl e => Raised (Python e)
   end, id).

End Library.

End AgentMailClient.

(** ** The project check of the command line *)

(** [proj.get("human_key") == project_key or proj.get("slug") ==
    project_key] *)
Definition project_matches (project_key : string) (proj : dict) : bool :=
  match dict_get "human_key" proj with
  | Some (JStr s) => String.eqb s project_key
  | _ => false
  end ||
  match dict_get "slug" proj with
  | Some (JStr s) => String.eqb s project_key
  | _ => false
  end.

(** The [for] loop of [_project_exists] over a list. *)
Fixpoint any_project (project_key : string) (projects : list json)
    : res bool :=
  match projects with
  | [] => Ok false
  | JDict proj :: rest =>
      if project_matches project_key proj then Ok true
      else any_project project_key rest
  | _ :: rest => Raise AttributeError
  end.

(** [_project_exists(client, project_key)], given how
    [client.list_projects(limit=500)] ends.  A dict is iterated by its
    keys and a str by its characters, which have no [get]. *)
Definition _project_exists (projects : AgentMailClient.outcome json)
    (project_key : string) : res bool :=
  match projects with
  | AgentMailClient.Raised _ => Ok true
  | AgentMailClient.Returned (JList items) => any_project project_key items
  | AgentMailClient.Returned (JDict []) => Ok false
  | AgentMailClient.Returned (JDict (_ :: _)) => Raise AttributeError
  | AgentMailClient.Returned (JStr "") => Ok false
  | AgentMailClient.Returned (JStr (String _ _)) => Raise AttributeError
  | AgentMailClient.Returned _ => Raise TypeError
  end.

(** * More of the command line *)

Section Purge.
Context (h : Host).

(** The loop of [purge] over [result["agents"]], a list of names: the
    local session file of each purged agent is cleared, and those that
    were there are counted. *)
Fixpoint purge_sessions (project_key : string) (agents : list string)
    (sessions_cleared : Z) : M Z :=
  match agents with
  | [] => mret sessions_cleared
  | agent_name :: rest =>
      cleared ← _clear_session h project_key agent_name;
      purge_sessions project_key rest
        (if cleared : bool then sessions_cleared + 1 else sessions_cleared)
  end.

End Purge.

(** * Notions used in the statements *)

(** The owner recorded in a session. *)
Definition owner (s : dict) : json := default JNull (dict_get "pid" s).

Section Notions.
Context (h : Host).

(** What the session file of [agent_name] in the project holds. *)
Definition stored (w : World) (project_key agent_name : string)
    : option file_text :=
  file_at w (_project_hash h project_key) (String.append agent_name ".json").

(** The directories once that session file is removed. *)
Definition erased (w : World) (project_key agent_name : string)
    : gmap string (gmap string file_text) :=
  match dirs w !! _project_hash h project_key with
  | Some d =>
      <[_project_hash h project_key :=
          delete (String.append agent_name ".json") d]> (dirs w)
  | None => dirs w
  end.

(** The world once the session directory of the project is there. *)
Definition ensure_dir (w : World) (project_key : string) : World :=
  match dirs w !! _project_hash h project_key with
  | Some _ => w
  | None => with_dirs w (<[_project_hash h project_key := ∅]> (dirs w))
  end.

(** The directories once the session file holds [t]. *)
Definition saved (w : World) (project_key agent_name : string)
    (t : file_text) : gmap string (gmap string file_text) :=
  <[_project_hash h project_key :=
      <[String.append agent_name ".json" := t]>
        (default ∅ (dirs w !! _project_hash h project_key))]> (dirs w).

(** No call on the session file, or on its directory, fails. *)
Definition healthy (project_key agent_name : string) : Prop :=
  fs_fault h Mkdir (_project_hash h project_key) "" = false /\
  forall c, fs_fault h c (_project_hash h project_key)
              (String.append agent_name ".json") = false.

(** The instant at which a record expires, when its [expires_at] is
    a str that parses to an aware datetime. *)
Definition expiry (d : dict) : option Z :=
  match default (JStr "") (dict_get "expires_at" d) with
  | JStr s =>
      match fromisoformat h (replace_Z s) with
      | Some (Aware e) => Some e
      | _ => None
      end
  | _ => None
  end.


(** The session file holds a record that has not expired. *)
Definition active_session (w : World) (project_key agent_name : string)
    : Prop :=
  exists d e,
    stored w project_key agent_name = Some (JsonText (JDict d)) /\
    expiry d = Some e /\ utcnow h (reads w) <= e.

(** What [_read_session] copes with in a session file: no file, text that
    is not JSON, or a JSON object whose [expires_at], if there is one, is a
    str that does not parse to a naive datetime. *)
Definition tolerated (t : option file_text) : Prop :=
  match t with
  | None | Some (NotJson _) => True
  | Some (JsonText (JDict d)) =>
      match default (JStr "") (dict_get "expires_at" d) with
      | JStr s => forall n, fromisoformat h (replace_Z s) <> Some (Naive n)
      | _ => False
      end
  | Some (JsonText _) => False
  end.

(** [ttl] seconds after [now] is a datetime, and [isoformat] prints it so
    that [fromisoformat] reads it back. *)
Definition expires_after (now ttl expires : Z) : Prop :=
  timedelta_seconds ttl = Ok (ttl * 1000000) /\
  datetime_add now (ttl * 1000000) = Ok expires /\
  fromisoformat h (replace_Z (isoformat h expires)) = Some (Aware expires).

(** A run of renewals, one [_write_session] per time-to-live. *)
Fixpoint renewals (project_key agent_name : string) (ttls : list Z)
    : M (list dict) :=
  match ttls with
  | [] => mret []
  | ttl :: rest =>
      d ← _write_session h project_key agent_name ttl;
      ds ← renewals project_key agent_name rest;
      mret (d :: ds)
  end.

(** The session file holds a record that has not expired by the [k]-th
    reading of the clock. *)
Definition unexpired_at (w : World) (project_key agent_name : string)
    (k : nat) : Prop :=
  match stored w project_key agent_name with
  | Some (JsonText (JDict d)) =>
      match expiry d with
      | Some e => utcnow h k <= e
      | None => False
      end
  | _ => False
  end.

(** Each renewal of the run finds the record of the one before it
    unexpired, and asks for an expiry that [expires_after] accepts. *)
Fixpoint renewable (project_key agent_name : string) (ttls : list Z)
    (w : World) : Prop :=
  match ttls with
  | [] => True
  | ttl :: rest =>
      unexpired_at w project_key agent_name (S (reads w)) /\
      (exists expires, expires_after (utcnow h (reads w)) ttl expires) /\
      renewable project_key agent_name rest
        (snd (_write_session h project_key agent_name ttl w))
  end.

(** The pids above 1 that the walk of [_pid_in_ancestry] goes through,
    starting from [current], when the walk ends within [n] calls of ps. *)
Fixpoint chain (n : nat) (current : Z) : option (list Z) :=
  if negb (1 <? current) then Some []
  else
    match n with
    | O => None
    | S n' =>
        match ps_ppid h current with
        | PsParent parent => cons current <$> chain n' parent
        | _ => Some [current]
        end
    end.

(** [pid] is found in the ancestry [l] of the current process. *)
Definition in_ancestry (l : list Z) (pid : Z) : bool :=
  (1 <? pid) && which_ps h && existsb (Z.eqb pid) l.

(** The pid that [_detect_agent_from_session] takes from a session file;
    [None] for a file that it skips. *)
Definition file_owner (w : World) (dir session_file : string)
    : res (option Z) :=
  if fs_fault h ReadText dir session_file then Ok None
  else
    match file_at w dir session_file with
    | None | Some (NotJson _) => Ok None
    | Some (JsonText (JDict d)) =>
        let v := default JNull (dict_get "pid" d) in
        match py_int h (if truthy v then v else JInt 0) with
        | Ok pid => Ok (Some pid)
        | Raise e => Raise e
        | Hang => Hang
        end
    | Some (JsonText _) => Raise AttributeError
    end.

(** The session file is owned by a process of the ancestry [l]. *)
Definition owned_by (w : World) (dir : string) (l : list Z)
    (session_file : string) : bool :=
  match file_owner w dir session_file with
  | Ok (Some pid) => in_ancestry l pid
  | _ => false
  end.

(** Every session file has a pid that can be taken, or is skipped. *)
Definition owners_known (w : World) (dir : string)
    (session_files : list string) : Prop :=
  Forall (fun f => exists o, file_owner w dir f = Ok o) session_files.

End Notions.





(** * Notions used in the further properties *)

Section MoreNotions.
Context (h : Host).


End MoreNotions.

(** No file is new or changed in [w']: each one is as in [w], or gone. *)
Definition only_removes (w w' : World) : Prop :=
  forall dir name,
    file_at w' dir name = file_at w dir name \/ file_at w' dir name = None.

(** [os.kill(pid, 0)] returns, or raises OSError. *)
Definition kill_is_a_probe (h : Host) : Prop :=
  forall pid, kill0 h pid = Ok tt \/ kill0 h pid = Raise OSError.

(** The agents of the list that have a session file. *)
Definition with_session (h : Host) (w : World) (project_key : string)
    (agents : list string) : list string :=
  List.filter (fun a => bool_decide (is_Some (stored h w project_key a)))
    agents.

(** * A host and worlds for the worked examples *)

Module Demo.

(** 2026-01-01T00:00:00+00:00, in microseconds since the epoch. *)
Definition T0 : Z := 1767225600000000.

(** The timestamps that occur in the examples, as [isoformat] prints them
    and [fromisoformat] reads them. *)
Definition iso_table : list (string * Z) :=
  [("2020-01-01T00:00:00+00:00", 1577836800000000);
   ("2025-12-31T23:59:59+00:00", 1767225599000000);
   ("2026-01-01T00:00:00+00:00", 1767225600000000);
   ("2026-01-01T00:00:02+00:00", 1767225602000000);
   ("2026-01-01T00:05:00+00:00", 1767225900000000);
   ("2026-01-01T00:05:02+00:00", 1767225902000000);
   ("2099-01-01T00:00:00+00:00", 4070908800000000)].

Fixpoint iso_read (table : list (string * Z)) (s : string) : option datetime :=
  match table with
  | [] => None
  | (text, t) :: rest =>
      if String.eqb s text then Some (Aware t) else iso_read rest s
  end.

Fixpoint iso_print (table : list (string * Z)) (t : Z) : string :=
  match table with
  | [] => ""
  | (text, t') :: rest => if t =? t' then text else iso_print rest t
  end.

(** The process tree: agent-mail (5000) under a shell (4999) under the
    editor (4242) under init; 7000 is another live process, every other
    pid is dead. *)
Definition parents (pid : Z) : ps_outcome :=
  if pid =? 5000 then PsParent 4999
  else if pid =? 4999 then PsParent 4242
  else if pid =? 4242 then PsParent 1
  else if pid =? 7000 then PsParent 1
  else PsFails.

Definition alive (pid : Z) : res unit :=
  if (pid =? 5000) || (pid =? 4999) || (pid =? 4242) || (pid =? 7000)
  then Ok tt else Raise OSError.

(** The host: one clock reading per second from [T0] on, no environment
    variables, a file system that works.  Only the project [/tmp/p]
    occurs, and no pid is stored as a str. *)
Definition host : Host := {|
  sha256_hex12 := fun _ => "48feb3df273e";
  fromisoformat := iso_read iso_table;
  isoformat := iso_print iso_table;
  int_of_str := fun _ => None;
  utcnow := fun k => T0 + Z.of_nat k * 1000000;
  getpid := 5000;
  getppid := 4999;
  ps_ppid := parents;
  which_ps := true;
  kill0 := alive;
  environ := fun _ => None;
  fs_fault := fun _ _ _ => false
|}.

(** The same host, on which writing a session file fails. *)
Definition read_only_host : Host := {|
  sha256_hex12 := sha256_hex12 host;
  fromisoformat := fromisoformat host;
  isoformat := isoformat host;
  int_of_str := int_of_str host;
  utcnow := utcnow host;
  getpid := getpid host;
  getppid := getppid host;
  ps_ppid := ps_ppid host;
  which_ps := which_ps host;
  kill0 := kill0 host;
  environ := environ host;
  fs_fault := fun c _ _ => match c with WriteText => true | _ => false end
|}.

(** The same host with AGENT_NAME set. *)
Definition env_host : Host := {|
  sha256_hex12 := sha256_hex12 host;
  fromisoformat := fromisoformat host;
  isoformat := isoformat host;
  int_of_str := int_of_str host;
  utcnow := utcnow host;
  getpid := getpid host;
  getppid := getppid host;
  ps_ppid := ps_ppid host;
  which_ps := which_ps host;
  kill0 := kill0 host;
  environ := fun k => if String.eqb k "AGENT_NAME" then Some "BlueLake"
                      else None;
  fs_fault := fs_fault host
|}.

Definition empty_world : World :=
  {| dirs := ∅; reads := 0; out := []; calls := [] |}.

(** A session record of [agent] owned by [pid]. *)
Definition record (agent started_at expires_at : string) (pid : Z) : dict :=
  [("agent", JStr agent);
   ("project", JStr "/tmp/p");
   ("started_at", JStr started_at);
   ("expires_at", JStr expires_at);
   ("pid", JInt pid)].

(** A world whose session directory of [/tmp/p] holds the given files. *)
Definition world_with (files : list (string * file_text)) : World :=
  {| dirs := {[ "48feb3df273e" := list_to_map files ]};
     reads := 0; out := []; calls := [] |}.

(** Nova, started in 2020: expiring in 2099, or expired since 2025. *)
Definition nova_live (pid : Z) : file_text :=
  JsonText (JDict (record "Nova" "2020-01-01T00:00:00+00:00"
                     "2099-01-01T00:00:00+00:00" pid)).

Definition nova_expired (pid : Z) : file_text :=
  JsonText (JDict (record "Nova" "2020-01-01T00:00:00+00:00"
                     "2025-12-31T23:59:59+00:00" pid)).

(** A client whose server is down, and one that answers. *)
Definition down : Client := {|
  ensure_project := fun _ => Raise (TransportError "connection refused");
  list_agents := fun _ => Raise (TransportError "connection refused");
  register_agent := fun _ _ _ _ _ => Raise (TransportError "connection refused")
|}.

Definition serving (agents : list json) : Client := {|
  ensure_project := fun _ => Ok JNull;
  list_agents := fun _ => Ok agents;
  register_agent := fun _ _ _ name _ =>
    Ok [("name", JStr (default "GreenField" name))]
|}.

End Demo.

(** * More worlds and hosts for the worked examples *)

Module Scene.

(** The session directory of [/tmp/p] with the given files, after [k]
    readings of the clock. *)
Definition world_at (k : nat) (files : list (string * file_text)) : World :=
  {| dirs := {[ "48feb3df273e" := list_to_map files ]};
     reads := k; out := []; calls := [] |}.

End Scene.

Module Hosts.

(** The host of the examples without [ps] on the path. *)
Definition without_ps : Host := {|
  sha256_hex12 := sha256_hex12 Demo.host;
  fromisoformat := fromisoformat Demo.host;
  isoformat := isoformat Demo.host;
  int_of_str := int_of_str Demo.host;
  utcnow := utcnow Demo.host;
  getpid := getpid Demo.host;
  getppid := getppid Demo.host;
  ps_ppid := ps_ppid Demo.host;
  which_ps := false;
  kill0 := kill0 Demo.host;
  environ := environ Demo.host;
  fs_fault := fs_fault Demo.host
|}.

(** A host on which [ps] reports 4999 as the parent of 5000 and 5000 as
    the parent of 4999. *)
Definition looping : Host := {|
  sha256_hex12 := sha256_hex12 Demo.host;
  fromisoformat := fromisoformat Demo.host;
  isoformat := isoformat Demo.host;
  int_of_str := int_of_str Demo.host;
  utcnow := utcnow Demo.host;
  getpid := getpid Demo.host;
  getppid := getppid Demo.host;
  ps_ppid := fun pid => if pid =? 5000 then PsParent 4999
                        else if pid =? 4999 then PsParent 5000
                        else PsFails;
  which_ps := true;
  kill0 := kill0 Demo.host;
  environ := environ Demo.host;
  fs_fault := fs_fault Demo.host
|}.

End Hosts.

Module Wire.

(** The few texts that [json.loads] meets in the examples. *)
Definition loads (text : string) : option json :=
  if String.eqb text "[1, 2]" then Some (JList [JInt 1; JInt 2])
  else if String.eqb text "null" then Some JNull
  else None.

Definition repr (v : json) : string := "<object>".

Definition strip (s : string) : string := s.

(** A server that answers every request with the same response. *)
Definition answering (response : json) (payload : json) : exn + json :=
  inr response.

(** The envelope of a tool result. *)
Definition members (mcp_result : json) : dict :=
  [("jsonrpc", JStr "2.0"); ("id", JInt 1); ("result", mcp_result)].

Definition envelope (mcp_result : json) : json := JDict (members mcp_result).

Definition call (response : json) : AgentMailClient.outcome json * Z :=
  AgentMailClient.call_tool repr strip loads (answering response) 0
    "fetch_inbox" None.

End Wire.

Module Roster.

(** Three agents as [list_agents] describes them: Orion, Nova (the most
    recently active one), and one that was deleted after that. *)
Definition agents : list json :=
  [JDict [("name", JStr "Orion");
          ("last_active_ts", JStr "2025-06-01T00:00:00Z")];
   JDict [("name", JStr "Nova");
          ("last_active_ts", JStr "2026-01-01T00:00:00Z")];
   JDict [("name", JStr "Deleted-7");
          ("last_active_ts", JStr "2026-02-01T00:00:00Z")]].

(** A server that knows the project but refuses to register. *)
Definition refusing : Client := {|
  ensure_project := fun _ => Ok JNull;
  list_agents := fun _ => Ok agents;
  register_agent := fun _ _ _ _ _ => Raise (AgentMailError "name is taken")
|}.

End Roster.

(** * Properties *)

(** ** Running the monad *)

Lemma bind_ok {A B} (c : M A) (k : A -> M B) w a w' :
  c w = (Ok a, w') -> (c ≫= k) w = k a w'.
Proof. intros E. unfold mbind, M_bind, bind. now rewrite E. Qed.

Lemma bind_raise {A B} (c : M A) (k : A -> M B) w e w' :
  c w = (Raise e, w') -> (c ≫= k) w = (Raise e, w').
Proof. intros E. unfold mbind, M_bind, bind. now rewrite E. Qed.

Lemma bind_hang {A B} (c : M A) (k : A -> M B) w w' :
  c w = (Hang, w') -> (c ≫= k) w = (Hang, w').
Proof. intros E. unfold mbind, M_bind, bind. now rewrite E. Qed.

Lemma try_ok {A} (body : M A) caught handler w a w' :
  body w = (Ok a, w') -> try_except body caught handler w = (Ok a, w').
Proof. intros E. unfold try_except. now rewrite E. Qed.

Lemma try_caught {A} (body : M A) caught handler w e w' :
  body w = (Raise e, w') -> caught e = true ->
  try_except body caught handler w = handler e w'.
Proof. intros E C. unfold try_except. now rewrite E, C. Qed.

Lemma try_uncaught {A} (body : M A) caught handler w e w' :
  body w = (Raise e, w') -> caught e = false ->
  try_except body caught handler w = (Raise e, w').
Proof. intros E C. unfold try_except. now rewrite E, C. Qed.

(** Unfolds the monad down to functions on worlds. *)
Ltac run :=
  unfold mbind, M_bind, bind, mret, M_ret, ret, raise, lift,
    try_except, get_world, set_dirs, emit, log_call, datetime_now in *;
  cbn beta iota in *.

(** ** The session store *)

Section SessionStore.
Context (h : Host).

Lemma path_exists_eq w dir name :
  path_exists dir name w =
  (Ok (match file_at w dir name with Some _ => true | None => false end), w).
Proof.
  unfold path_exists. run. destruct (file_at w dir name) eqn:E.
  - rewrite bool_decide_eq_true_2; [reflexivity | eauto].
  - rewrite bool_decide_eq_false_2; [reflexivity | ].
    intros [x Hx]. discriminate.
Qed.

(** What [_read_session] does, case by case on the session file. *)
Lemma read_session_eq w pk a :
  _read_session h pk a w =
  match stored h w pk a with
  | None => (Ok None, w)
  | Some t =>
      if fs_fault h ReadText (_project_hash h pk) (String.append a ".json")
      then (Ok None, w)
      else
        match t with
        | NotJson _ => (Ok None, w)
        | JsonText (JDict d) =>
            match default (JStr "") (dict_get "expires_at" d) with
            | JStr s =>
                match fromisoformat h (replace_Z s) with
                | None => (Ok None, w)
                | Some (Naive _) => (Raise TypeError, tick w)
                | Some (Aware e) =>
                    if e <? utcnow h (reads w) then
                      if fs_fault h Unlink (_project_hash h pk)
                           (String.append a ".json")
                      then (Ok None, tick w)
                      else (Ok None, with_dirs (tick w) (erased h w pk a))
                    else (Ok (Some d), tick w)
                end
            | _ => (Raise AttributeError, w)
            end
        | JsonText _ => (Raise AttributeError, w)
        end
  end.
Proof.
  unfold _read_session, _session_file, stored, erased.
  set (dir := _project_hash h pk). set (name := String.append a ".json").
  unfold mbind at 1, M_bind at 1, bind at 1. rewrite path_exists_eq.
  destruct (file_at w dir name) as [t|] eqn:Ef; [|reflexivity].
  cbn [negb]. unfold read_text.
  destruct (fs_fault h ReadText dir name); [reflexivity|].
  run. rewrite Ef.
  destruct t as [raw|doc]; [reflexivity|].
  unfold json_loads, as_dict. run.
  destruct doc; try reflexivity.
  unfold parse_iso. run.
  destruct (default (JStr "") (dict_get "expires_at" fields)); try reflexivity.
  destruct (fromisoformat h (replace_Z s)) as [[e|e]|]; try reflexivity.
  unfold dt_lt. run. cbn [reads tick].
  destruct (e <? utcnow h (reads w)); [|reflexivity].
  unfold unlink.
  destruct (fs_fault h Unlink dir name); [reflexivity|].
  run. cbn [dirs tick].
  unfold file_at in Ef.
  destruct (dirs w !! dir) as [dd|] eqn:Ed; [|discriminate].
  cbn in Ef. rewrite Ef. reflexivity.
Qed.

(** [_read_session] ends in one of four ways; it prints nothing, calls
    nothing, reads the clock at most once, and all it may do to the files
    is remove an expired record. *)
Lemma read_session_cases w pk a :
  exists r w', _read_session h pk a w = (r, w') /\
    (r = Ok None \/ (exists d, r = Ok (Some d)) \/
     r = Raise TypeError \/ r = Raise AttributeError) /\
    out w' = out w /\ calls w' = calls w /\
    (dirs w' = dirs w \/
     dirs w' = erased h w pk a /\ r = Ok None /\
     exists d e, stored h w pk a = Some (JsonText (JDict d)) /\
                 expiry h d = Some e /\ e < utcnow h (reads w)) /\
    (reads w' = reads w \/ reads w' = S (reads w)).
Proof.
  rewrite read_session_eq. unfold expiry.
  destruct (stored h w pk a) as [[raw|doc]|];
    try (eexists _, _; split; [reflexivity|]; cbn; now intuition eauto).
  - destruct (fs_fault h ReadText _ _);
      eexists _, _; (split; [reflexivity|]); cbn; intuition eauto.
  - destruct (fs_fault h ReadText _ _);
      [eexists _, _; split; [reflexivity|]; cbn; now intuition eauto|].
    destruct doc;
      try (eexists _, _; split; [reflexivity|]; cbn; now intuition eauto).
    destruct (default (JStr "") (dict_get "expires_at" fields)) eqn:Ev;
      try (eexists _, _; split; [reflexivity|]; cbn; now intuition eauto).
    destruct (fromisoformat h (replace_Z s)) as [[e|e]|] eqn:Ep;
      try (eexists _, _; split; [reflexivity|]; cbn; now intuition eauto).
    destruct (e <? utcnow h (reads w)) eqn:El;
      [|eexists _, _; split; [reflexivity|]; cbn; now intuition eauto].
    apply Z.ltb_lt in El.
    destruct (fs_fault h Unlink _ _);
      [eexists _, _; split; [reflexivity|]; cbn; now intuition eauto|].
    eexists _, _; split; [reflexivity|]. cbn.
    repeat split; eauto.
    right. repeat split; eauto. exists fields, e. now rewrite Ev, Ep.
Qed.

(** An unexpired record is returned as it is stored, and stays. *)
Lemma read_session_some w pk a d w' :
  _read_session h pk a w = (Ok (Some d), w') ->
  stored h w pk a = Some (JsonText (JDict d)) /\
  (exists e, expiry h d = Some e /\ utcnow h (reads w) <= e) /\
  w' = tick w.
Proof.
  rewrite read_session_eq. unfold expiry.
  destruct (stored h w pk a) as [t|] eqn:Es; [|discriminate].
  destruct (fs_fault h ReadText _ _); [discriminate|].
  destruct t as [raw|doc]; [discriminate|].
  destruct doc; try discriminate.
  destruct (default (JStr "") (dict_get "expires_at" fields)) eqn:Ev;
    try discriminate.
  destruct (fromisoformat h (replace_Z s)) as [[e|e]|] eqn:Ep;
    try discriminate.
  destruct (e <? utcnow h (reads w)) eqn:El.
  - destruct (fs_fault h Unlink _ _); discriminate.
  - intros [= <- <-]. apply Z.ltb_ge in El.
    split; [reflexivity|]. split; [|reflexivity]. exists e.
    now rewrite Ev, Ep.
Qed.

(** The other way round: a stored record that has not expired is
    returned, provided the file can be read. *)
Lemma read_session_live w pk a d e :
  stored h w pk a = Some (JsonText (JDict d)) ->
  fs_fault h ReadText (_project_hash h pk) (String.append a ".json") = false ->
  expiry h d = Some e -> utcnow h (reads w) <= e ->
  _read_session h pk a w = (Ok (Some d), tick w).
Proof.
  intros Es Ef Ee Hle. rewrite read_session_eq, Es, Ef.
  unfold expiry in Ee.
  destruct (default (JStr "") (dict_get "expires_at" d)); try discriminate.
  destruct (fromisoformat h (replace_Z s)) as [[e'|e']|]; try discriminate.
  injection Ee as ->. apply Z.ltb_ge in Hle. now rewrite Hle.
Qed.

(** An expired record is removed, and [None] is returned. *)
Lemma read_session_expired w pk a d e :
  stored h w pk a = Some (JsonText (JDict d)) ->
  fs_fault h ReadText (_project_hash h pk) (String.append a ".json") = false ->
  expiry h d = Some e -> e < utcnow h (reads w) ->
  _read_session h pk a w =
  (Ok None,
   if fs_fault h Unlink (_project_hash h pk) (String.append a ".json")
   then tick w else with_dirs (tick w) (erased h w pk a)).
Proof.
  intros Es Ef Ee Hlt. rewrite read_session_eq, Es, Ef.
  unfold expiry in Ee.
  destruct (default (JStr "") (dict_get "expires_at" d)); try discriminate.
  destruct (fromisoformat h (replace_Z s)) as [[e'|e']|]; try discriminate.
  injection Ee as ->. apply Z.ltb_lt in Hlt. rewrite Hlt.
  now destruct (fs_fault h Unlink _ _).
Qed.

(** Two kinds of file that [_read_session] does not take for absent: JSON
    that is not an object, or whose [expires_at] is not a str, raises
    AttributeError; an [expires_at] without a UTC offset raises
    TypeError. *)
Remark read_session_not_a_record w pk a doc :
  stored h w pk a = Some (JsonText doc) ->
  fs_fault h ReadText (_project_hash h pk) (String.append a ".json") = false ->
  match doc with
  | JDict d => is_str (default (JStr "") (dict_get "expires_at" d)) = false
  | _ => True
  end ->
  _read_session h pk a w = (Raise AttributeError, w).
Proof.
  intros Es Hf Hd. rewrite read_session_eq, Es, Hf.
  destruct doc; try reflexivity.
  now destruct (default (JStr "") (dict_get "expires_at" fields)).
Qed.

Remark read_session_naive_expiry w pk a d s t :
  stored h w pk a = Some (JsonText (JDict d)) ->
  fs_fault h ReadText (_project_hash h pk) (String.append a ".json") = false ->
  dict_get "expires_at" d = Some (JStr s) ->
  fromisoformat h (replace_Z s) = Some (Naive t) ->
  _read_session h pk a w = (Raise TypeError, tick w).
Proof.
  intros Es Hf Hd Hp. rewrite read_session_eq, Es, Hf, Hd. cbn.
  now rewrite Hp.
Qed.

(** Lookups in the world after the session file is removed or saved. *)
Lemma stored_erased w w' pk a :
  dirs w' = erased h w pk a -> stored h w' pk a = None.
Proof.
  unfold stored, erased, file_at. intros ->.
  destruct (dirs w !! _project_hash h pk) as [d|] eqn:Ed.
  - rewrite lookup_insert_eq. cbn. apply lookup_delete_eq.
  - now rewrite Ed.
Qed.

Lemma stored_saved w w' pk a t :
  dirs w' = saved h w pk a t -> stored h w' pk a = Some t.
Proof.
  unfold stored, saved, file_at. intros ->.
  rewrite lookup_insert_eq. cbn. apply lookup_insert_eq.
Qed.

Lemma mkdir_ok w pk :
  fs_fault h Mkdir (_project_hash h pk) "" = false ->
  mkdir h (_project_hash h pk) w = (Ok tt, ensure_dir h w pk).
Proof.
  intros Ef. unfold mkdir, ensure_dir. rewrite Ef. run.
  now destruct (dirs w !! _project_hash h pk).
Qed.

Lemma ensure_dir_lookup w pk :
  is_Some (dirs (ensure_dir h w pk) !! _project_hash h pk).
Proof.
  unfold ensure_dir.
  destruct (dirs w !! _project_hash h pk) eqn:E; cbn.
  - rewrite E. eauto.
  - rewrite lookup_insert_eq. eauto.
Qed.

Lemma erased_lookup w pk a :
  is_Some (dirs w !! _project_hash h pk) ->
  is_Some (erased h w pk a !! _project_hash h pk).
Proof.
  intros [d Ed]. unfold erased. rewrite Ed, lookup_insert_eq. eauto.
Qed.

(** [_read_session] leaves the session directory in place. *)
Lemma read_session_keeps_dir w pk a r w' :
  _read_session h pk a w = (r, w') ->
  is_Some (dirs w !! _project_hash h pk) ->
  is_Some (dirs w' !! _project_hash h pk).
Proof.
  intros E Hd.
  destruct (read_session_cases w pk a) as (r0 & w0 & E0 & _ & _ & _ & Hdirs & _).
  rewrite E in E0. injection E0 as <- <-.
  destruct Hdirs as [-> | [-> _]]; [assumption | now apply erased_lookup].
Qed.

(** A mkdir that fails ends [_write_session] at once. *)
Lemma write_session_mkdir_fault w pk a ttl :
  fs_fault h Mkdir (_project_hash h pk) "" = true ->
  _write_session h pk a ttl w = (Raise OSError, w).
Proof.
  intros Ef. unfold _write_session, _session_file, mkdir. now rewrite Ef.
Qed.

(** The run of [_write_session] up to its [write_text]. *)
Lemma write_session_eq w pk a ttl :
  fs_fault h Mkdir (_project_hash h pk) "" = false ->
  _write_session h pk a ttl w =
  let w1 := tick (ensure_dir h w pk) in
  let now := utcnow h (reads w) in
  match timedelta_seconds ttl with
  | Ok delta =>
      match datetime_add now delta with
      | Ok expires =>
          match _read_session h pk a w1 with
          | (Ok existing, w2) =>
              let data :=
                carry_started_at existing
                  (new_session h pk a now expires (stable_pid h)) in
              if fs_fault h WriteText (_project_hash h pk)
                   (String.append a ".json")
              then (Raise OSError, w2)
              else (Ok data,
                    with_dirs w2 (saved h w2 pk a (JsonText (JDict data))))
          | (Raise e, w2) => (Raise e, w2)
          | (Hang, w2) => (Hang, w2)
          end
      | Raise e => (Raise e, w1)
      | Hang => (Hang, w1)
      end
  | Raise e => (Raise e, w1)
  | Hang => (Hang, w1)
  end.
Proof.
  intros Ef. unfold _write_session, _session_file.
  rewrite (bind_ok _ _ _ _ _ (mkdir_ok w pk Ef)).
  assert (Hr : reads (ensure_dir h w pk) = reads w).
  { unfold ensure_dir. now destruct (dirs w !! _project_hash h pk). }
  run. rewrite Hr. cbv zeta.
  destruct (timedelta_seconds ttl) as [delta| |]; try reflexivity.
  destruct (datetime_add (utcnow h (reads w)) delta) as [expires| |];
    try reflexivity.
  destruct (_read_session h pk a (tick (ensure_dir h w pk)))
    as [[existing| |] w2] eqn:Er; try reflexivity.
  unfold write_text.
  destruct (fs_fault h WriteText _ _); [reflexivity|].
  run.
  destruct (read_session_keeps_dir _ _ _ _ _ Er) as [d Ed].
  { cbn. apply ensure_dir_lookup. }
  unfold saved. now rewrite Ed.
Qed.

(** With a failing [write_text], [_write_session] always raises, and
    what it raises is not an exit. *)
Lemma write_session_write_fault w pk a ttl :
  fs_fault h WriteText (_project_hash h pk) (String.append a ".json") = true ->
  exists e w', _write_session h pk a ttl w = (Raise e, w') /\
               is_Exit e = false.
Proof.
  intros Ew.
  destruct (fs_fault h Mkdir (_project_hash h pk) "") eqn:Em.
  { rewrite write_session_mkdir_fault by assumption. now eexists _, _. }
  rewrite write_session_eq by assumption. cbv zeta.
  unfold timedelta_seconds, datetime_add.
  destruct (Z.abs (ttl / 86400) <=? TIMEDELTA_MAX_DAYS);
    [|now eexists _, _].
  destruct (_ && _); [|now eexists _, _].
  destruct (read_session_cases (tick (ensure_dir h w pk)) pk a)
    as (r & w2 & -> & Hr & _).
  rewrite Ew.
  destruct Hr as [-> | [[d ->] | [-> | ->]]]; now eexists _, _.
Qed.

Lemma stored_ensure_dir w pk a :
  stored h (tick (ensure_dir h w pk)) pk a = stored h w pk a.
Proof.
  unfold stored, file_at, ensure_dir.
  destruct (dirs w !! _project_hash h pk) eqn:E; cbn; [now rewrite E|].
  rewrite lookup_insert_eq. cbn. now rewrite lookup_empty.
Qed.

Lemma stored_tick w pk a : stored h (tick w) pk a = stored h w pk a.
Proof. reflexivity. Qed.

(** On a tolerated file [_read_session] returns. *)
Lemma read_session_tolerated w pk a :
  tolerated h (stored h w pk a) ->
  exists r w', _read_session h pk a w = (Ok r, w') /\
    (reads w' = reads w \/ reads w' = S (reads w)).
Proof.
  intros Ht. rewrite read_session_eq. unfold tolerated in Ht.
  destruct (stored h w pk a) as [[raw|doc]|]; try (now eexists _, _; eauto).
  - destruct (fs_fault h ReadText _ _); now eexists _, _; eauto.
  - destruct (fs_fault h ReadText _ _); [now eexists _, _; eauto|].
    destruct doc; try contradiction.
    destruct (default (JStr "") (dict_get "expires_at" fields));
      try contradiction.
    destruct (fromisoformat h (replace_Z s)) as [[e|e]|].
    + destruct (e <? _); [destruct (fs_fault h Unlink _ _)|];
        eexists _, _; split; try reflexivity; cbn; eauto.
    + now destruct (Ht e).
    + now eexists _, _; eauto.
Qed.

Lemma expiry_carry existing pk a now expires pid :
  dict_get "expires_at"
    (carry_started_at existing (new_session h pk a now expires pid)) =
  Some (JStr (isoformat h expires)).
Proof. destruct existing as [[|item items]|]; reflexivity. Qed.

Lemma started_at_carry d0 v pk a now expires pid :
  dict_get "started_at" d0 = Some v ->
  dict_get "started_at"
    (carry_started_at (Some d0) (new_session h pk a now expires pid)) =
  Some v.
Proof.
  intros E. destruct d0 as [|item items]; [discriminate|].
  unfold carry_started_at. rewrite E. reflexivity.
Qed.

(** One write, then one read. *)
Lemma write_then_read w pk a ttl expires :
  healthy h pk a ->
  tolerated h (stored h w pk a) ->
  expires_after h (utcnow h (reads w)) ttl expires ->
  (forall k, (reads w < k <= reads w + 2)%nat -> utcnow h k <= expires) ->
  exists d w',
    (_write_session h pk a ttl ≫= fun _ => _read_session h pk a) w =
      (Ok (Some d), w') /\
    expires = utcnow h (reads w) + ttl * 1000000 /\
    dict_get "expires_at" d = Some (JStr (isoformat h expires)) /\
    expiry h d = Some expires /\
    stored h w' pk a = Some (JsonText (JDict d)) /\
    forall d0 e0 v,
      stored h w pk a = Some (JsonText (JDict d0)) ->
      expiry h d0 = Some e0 -> utcnow h (S (reads w)) <= e0 ->
      dict_get "started_at" d0 = Some v ->
      dict_get "started_at" d = Some v.
Proof.
  intros [Hm Hf] Ht (Hdelta & Hadd & Hiso) Hclock.
  destruct (read_session_tolerated (tick (ensure_dir h w pk)) pk a)
    as (existing & w2 & Er & Hreads).
  { now rewrite stored_ensure_dir. }
  assert (Hr1 : reads (tick (ensure_dir h w pk)) = S (reads w)).
  { unfold ensure_dir. now destruct (dirs w !! _project_hash h pk). }
  rewrite Hr1 in Hreads.
  set (data := carry_started_at existing
                 (new_session h pk a (utcnow h (reads w)) expires
                    (stable_pid h))).
  set (w3 := with_dirs w2 (saved h w2 pk a (JsonText (JDict data)))).
  assert (Ew : _write_session h pk a ttl w = (Ok data, w3)).
  { rewrite write_session_eq by assumption. cbv zeta.
    rewrite Hdelta, Hadd, Er, (Hf WriteText). reflexivity. }
  assert (Es3 : stored h w3 pk a = Some (JsonText (JDict data))).
  { now apply (stored_saved w2). }
  assert (Ee : expiry h data = Some expires).
  { unfold expiry, data. rewrite expiry_carry. cbn.
    now rewrite Hiso. }
  exists data, (tick w3). split; [|split; [|split; [|split; [|split]]]].
  - rewrite (bind_ok _ _ _ _ _ Ew).
    apply read_session_live with (e := expires); auto.
    apply Hclock. cbn [reads w3 with_dirs]. lia.
  - unfold datetime_add in Hadd.
    destruct (_ && _); [now injection Hadd as <-|discriminate].
  - apply expiry_carry.
  - exact Ee.
  - now rewrite stored_tick.
  - intros d0 e0 v Es0 Ee0 Hle0 Hv.
    assert (existing = Some d0) as ->.
    { assert (El : _read_session h pk a (tick (ensure_dir h w pk)) =
                   (Ok (Some d0), tick (tick (ensure_dir h w pk)))).
      { apply read_session_live with (e := e0); auto.
        - now rewrite stored_ensure_dir.
        - now rewrite Hr1. }
      rewrite El in Er. now injection Er as <- _. }
    now apply started_at_carry.
Qed.

(** A renewal: the write finds an unexpired record. *)
Lemma write_session_renew w pk a ttl expires d0 e0 v :
  healthy h pk a ->
  stored h w pk a = Some (JsonText (JDict d0)) ->
  expiry h d0 = Some e0 -> utcnow h (S (reads w)) <= e0 ->
  dict_get "started_at" d0 = Some v ->
  expires_after h (utcnow h (reads w)) ttl expires ->
  exists d w',
    _write_session h pk a ttl w = (Ok d, w') /\
    stored h w' pk a = Some (JsonText (JDict d)) /\
    dict_get "started_at" d = Some v /\
    expiry h d = Some expires.
Proof.
  intros [Hm Hf] Es0 Ee0 Hle0 Hv (Hdelta & Hadd & Hiso).
  assert (Hr1 : reads (tick (ensure_dir h w pk)) = S (reads w)).
  { unfold ensure_dir. now destruct (dirs w !! _project_hash h pk). }
  assert (El : _read_session h pk a (tick (ensure_dir h w pk)) =
               (Ok (Some d0), tick (tick (ensure_dir h w pk)))).
  { apply read_session_live with (e := e0); auto.
    - now rewrite stored_ensure_dir.
    - now rewrite Hr1. }
  eexists _, _. split; [|split; [|split]].
  - rewrite write_session_eq by assumption. cbv zeta.
    rewrite Hdelta, Hadd, El, (Hf WriteText). reflexivity.
  - now apply (stored_saved (tick (tick (ensure_dir h w pk)))).
  - now apply started_at_carry.
  - unfold expiry. rewrite expiry_carry. cbn. now rewrite Hiso.
Qed.

(** Any number of renewals, each in time, keep [started_at]. *)
Lemma renewals_keep_started_at pk a ttls :
  healthy h pk a ->
  forall w d0 v,
    stored h w pk a = Some (JsonText (JDict d0)) ->
    dict_get "started_at" d0 = Some v ->
    renewable h pk a ttls w ->
    exists ds w',
      renewals h pk a ttls w = (Ok ds, w') /\
      length ds = length ttls /\
      Forall (fun d => dict_get "started_at" d = Some v) ds /\
      exists d, stored h w' pk a = Some (JsonText (JDict d)) /\
                dict_get "started_at" d = Some v.
Proof.
  intros Hh. induction ttls as [|ttl rest IH]; intros w d0 v Es0 Hv Hren.
  - exists [], w. cbn. repeat split; eauto.
  - destruct Hren as (Hun & [expires Hexp] & Hrest).
    unfold unexpired_at in Hun. rewrite Es0 in Hun.
    destruct (expiry h d0) as [e0|] eqn:Ee0; [|contradiction].
    destruct (write_session_renew w pk a ttl expires d0 e0 v)
      as (d & w1 & Ew & Es1 & Hv1 & _); auto.
    rewrite Ew in Hrest. cbn [snd] in Hrest.
    destruct (IH w1 d v Es1 Hv1 Hrest) as (ds & w' & Er & Hlen & Hall & Hlast).
    exists (d :: ds), w'. split; [|split; [|split]].
    + cbn [renewals]. rewrite (bind_ok _ _ _ _ _ Ew).
      rewrite (bind_ok _ _ _ _ _ Er). reflexivity.
    + cbn. now rewrite Hlen.
    + now constructor.
    + exact Hlast.
Qed.

End SessionStore.

(** ** Heartbeat, listing, conflicts *)

Section Commands.
Context (h : Host).

(** Without a session that [_read_session] returns, the heartbeat prints
    one line and exits with status 1, in the world the read left. *)
Lemma heartbeat_without_session w a pk ttl as_json r w1 :
  _read_session h pk a w = (r, w1) ->
  r = Ok None \/ r = Ok (Some []) \/
  r = Raise TypeError \/ r = Raise AttributeError ->
  exists p,
    session_heartbeat h a pk ttl as_json w = (Raise (Exit 1), printing w1 p).
Proof.
  intros Er Hr. unfold session_heartbeat, command, handle_error.
  unfold try_except, mbind at 1, M_bind at 1, bind at 1. rewrite Er.
  destruct Hr as [-> | [-> | [-> | ->]]].
  - destruct as_json; run; eexists; reflexivity.
  - destruct as_json; run; eexists; reflexivity.
  - run. eexists; reflexivity.
  - run. eexists; reflexivity.
Qed.

(** With one, the heartbeat ends as [_write_session] does: an exception
    of the write is printed and turned into exit status 1. *)
Lemma heartbeat_with_session w a pk ttl as_json item items w1 :
  _read_session h pk a w = (Ok (Some (item :: items)), w1) ->
  session_heartbeat h a pk ttl as_json w =
  match _write_session h pk a ttl w1 with
  | (Ok updated, w2) =>
      (Ok tt, printing w2 (if as_json then OutJson (JDict updated)
                           else OutText (MsgSessionExtended a ttl)))
  | (Raise e, w2) =>
      if is_Exit e then (Raise e, w2)
      else (Raise (Exit 1), printing w2 (ErrText (MsgError e)))
  | (Hang, w2) => (Hang, w2)
  end.
Proof.
  intros Er. unfold session_heartbeat, command, handle_error.
  unfold try_except, mbind at 1, M_bind at 1, bind at 1. rewrite Er.
  unfold mbind at 1, M_bind at 1, bind at 1.
  destruct (_write_session h pk a ttl w1) as [[updated|e|] w2].
  - destruct as_json; reflexivity.
  - destruct (is_Exit e); reflexivity.
  - reflexivity.
Qed.



Lemma clear_session_eq w pk a :
  _clear_session h pk a w =
  match stored h w pk a with
  | Some _ =>
      if fs_fault h Unlink (_project_hash h pk) (String.append a ".json")
      then (Raise OSError, w)
      else (Ok true, with_dirs w (erased h w pk a))
  | None => (Ok false, w)
  end.
Proof.
  unfold _clear_session, _session_file, stored, erased.
  set (dir := _project_hash h pk). set (name := String.append a ".json").
  unfold mbind at 1, M_bind at 1, bind at 1. rewrite path_exists_eq.
  destruct (file_at w dir name) as [t|] eqn:Ef; [|reflexivity].
  unfold unlink. destruct (fs_fault h Unlink dir name); [reflexivity|].
  run. unfold file_at in Ef.
  destruct (dirs w !! dir) as [dd|]; [|discriminate].
  cbn in Ef. now rewrite Ef.
Qed.

Lemma format_session_expiry_ok w c e :
  expiry h c = Some e ->
  _format_session_expiry h c w =
  (Ok (format_remaining (e - utcnow h (reads w))), tick w).
Proof.
  unfold expiry, _format_session_expiry, parse_iso. intros E. run.
  destruct (default (JStr "") (dict_get "expires_at" c)); try discriminate.
  destruct (fromisoformat h (replace_Z s)) as [[e'|e']|]; try discriminate.
  now injection E as ->.
Qed.


(** A session whose owner [os.kill] does not find is cleared, and is no
    conflict. *)
Lemma check_conflict_dead w pk a s w1 p :
  _read_session h pk a w = (Ok (Some s), w1) ->
  dict_get "pid" s = Some (JInt p) ->
  p <> 0 -> p <> getpid h ->
  kill0 h p = Raise OSError ->
  fs_fault h Unlink (_project_hash h pk) (String.append a ".json") = false ->
  _check_session_conflict h pk a w =
  (Ok None, with_dirs w1 (erased h w1 pk a)).
Proof.
  intros Er Hp Hp0 Hpid Hk Hf. unfold _check_session_conflict.
  rewrite (bind_ok _ _ _ _ _ Er).
  destruct s as [|item items]; [discriminate|].
  rewrite Hp. cbn [default eq_int truthy from_option id].
  apply Z.eqb_neq in Hp0, Hpid. rewrite Hp0, Hpid. cbn [negb].
  unfold os_kill0, try_except, mbind at 1, M_bind at 1, bind at 1.
  unfold mbind at 1, M_bind at 1, bind at 1, lift. rewrite Hk.
  cbn [is_OSError].
  unfold mbind at 1, M_bind at 1, bind at 1.
  rewrite clear_session_eq.
  destruct (read_session_some h _ _ _ _ _ Er) as (Es & _ & ->).
  rewrite stored_tick, Es, Hf. reflexivity.
Qed.




End Commands.

(** ** The order of strings, and the stable sort *)






Section Sorting.
Context {A : Type} (le : A -> A -> bool).

Lemma insert_by_in x y l : In y (insert_by le x l) <-> y = x \/ In y l.
Proof.
  induction l as [|z l IH]; cbn.
  - intuition auto.
  - destruct (le x z); cbn; [intuition auto|]. rewrite IH. intuition auto.
Qed.

Lemma sort_by_in y l : In y (sort_by le l) <-> In y l.
Proof.
  induction l as [|x l IH]; cbn; [reflexivity|].
  rewrite insert_by_in, IH. intuition auto.
Qed.




Lemma insert_by_sorted x l :
  (forall a b, le a b = true \/ le b a = true) ->
  Sorted (fun a b => le a b = true) l ->
  Sorted (fun a b => le a b = true) (insert_by le x l).
Proof.
  intros Htot. induction 1 as [|z l Hl IH Hz]; cbn.
  - repeat constructor.
  - destruct (le x z) eqn:E.
    + repeat constructor; auto.
    + constructor; [exact IH|].
      assert (Hzx : le z x = true) by (destruct (Htot x z); congruence).
      destruct l as [|y l]; cbn; [now constructor|].
      destruct (le x y); constructor; auto. now inversion Hz.
Qed.

Lemma sort_by_sorted l :
  (forall a b, le a b = true \/ le b a = true) ->
  Sorted (fun a b => le a b = true) (sort_by le l).
Proof.
  intros Htot. induction l as [|x l IH]; cbn; [constructor|].
  now apply insert_by_sorted.
Qed.

End Sorting.

(** ** The claims about the session store *)

(** C2, as amended.  A filesystem error in [_write_session] is not
    swallowed: when [mkdir] or [write_text] fails, [_write_session] raises
    to its caller, and the heartbeat command prints the error and exits
    with status 1. *)
Theorem write_errors_reach_the_caller h pk a ttl w :
  fs_fault h Mkdir (_project_hash h pk) "" = true \/
  fs_fault h WriteText (_project_hash h pk) (String.append a ".json") = true ->
  (exists e w',
     _write_session h pk a ttl w = (Raise e, w') /\ is_Exit e = false) /\
  (forall as_json,
     exists w',
       session_heartbeat h a pk ttl as_json w = (Raise (Exit 1), w') /\
       forall item items w1,
         _read_session h pk a w = (Ok (Some (item :: items)), w1) ->
         exists e w2,
           _write_session h pk a ttl w1 = (Raise e, w2) /\
           w' = printing w2 (ErrText (MsgError e))).
Proof.
  intros Hfault.
  assert (Hw : forall w0, exists e w',
             _write_session h pk a ttl w0 = (Raise e, w') /\
             is_Exit e = false).
  { intros w0. destruct Hfault as [Hm | Hwt].
    - rewrite write_session_mkdir_fault by assumption. now eexists _, _.
    - now apply write_session_write_fault. }
  split; [apply Hw|]. intros as_json.
  destruct (read_session_cases h w pk a) as (r & w1 & Er & Hr & _).
  destruct Hr as [-> | [[[|item items] ->] | Hr]].
  - destruct (heartbeat_without_session h w a pk ttl as_json _ _ Er)
      as [p Hp]; [now left|].
    eexists; split; [exact Hp|]. intros ? ? ? E. rewrite Er in E.
    discriminate.
  - destruct (heartbeat_without_session h w a pk ttl as_json _ _ Er)
      as [p Hp]; [now right; left|].
    eexists; split; [exact Hp|]. intros ? ? ? E. rewrite Er in E.
    discriminate.
  - rewrite (heartbeat_with_session h _ _ _ _ _ _ _ _ Er).
    destruct (Hw w1) as (e & w2 & Ew & He). rewrite Ew, He.
    eexists; split; [reflexivity|]. intros ? ? ? E. rewrite Er in E.
    injection E as <- <- <-. now exists e, w2.
  - destruct (heartbeat_without_session h w a pk ttl as_json _ _ Er)
      as [p Hp]; [now right; right|].
    eexists; split; [exact Hp|]. intros ? ? ? E. rewrite Er in E.
    destruct Hr as [-> | ->]; discriminate.
Qed.

(** When the session file cannot be written, [_write_session] raises
    OSError, and the heartbeat of a live session prints it and exits with
    status 1. *)
Lemma write_error_is_raised_and_shown :
  fst (_write_session Demo.read_only_host "/tmp/p" "Nova" 300
         Demo.empty_world) = Raise OSError /\
  let r := session_heartbeat Demo.read_only_host "Nova" "/tmp/p" 300 true
             (Demo.world_with [("Nova.json", Demo.nova_live 4242)]) in
  fst r = Raise (Exit 1) /\ out (snd r) = [ErrText (MsgError OSError)].
Proof. vm_compute. repeat split. Qed.

Lemma write_errors_reach_the_caller_witness :
  exists e w',
    _write_session Demo.read_only_host "/tmp/p" "Nova" 300 Demo.empty_world =
      (Raise e, w') /\ is_Exit e = false.
Proof.
  apply (write_errors_reach_the_caller Demo.read_only_host "/tmp/p" "Nova"
           300 Demo.empty_world).
  right. reflexivity.
Defined.

(** C3, as amended.  [_read_session] does not look at the owner: an
    unexpired record is returned whether its owning process is alive or
    not.  It is conflict detection that treats the record of a dead owner
    (a non-zero pid other than the current one, which [os.kill] does not
    find) as absent and deletes it. *)
Theorem dead_owner_is_cleared_by_conflict_check h pk a w s e p :
  stored h w pk a = Some (JsonText (JDict s)) ->
  fs_fault h ReadText (_project_hash h pk) (String.append a ".json") = false ->
  expiry h s = Some e -> utcnow h (reads w) <= e ->
  dict_get "pid" s = Some (JInt p) -> p <> 0 -> p <> getpid h ->
  kill0 h p = Raise OSError ->
  _read_session h pk a w = (Ok (Some s), tick w) /\
  (fs_fault h Unlink (_project_hash h pk) (String.append a ".json") = false ->
   exists w',
     _check_session_conflict h pk a w = (Ok None, w') /\
     stored h w' pk a = None).
Proof.
  intros Es Hf He Hle Hp Hp0 Hpid Hk.
  assert (Er : _read_session h pk a w = (Ok (Some s), tick w)).
  { now apply read_session_live with (e := e). }
  split; [exact Er|]. intros Hu.
  eexists. split.
  - now apply (check_conflict_dead h w pk a s (tick w) p).
  - now apply (stored_erased h (tick w)).
Qed.

(** Nova's record is owned by pid 6000, which is dead, and expires in
    2099: [_read_session] returns it and leaves the file. *)
Lemma read_returns_record_of_dead_owner :
  let w := Demo.world_with [("Nova.json", Demo.nova_live 6000)] in
  kill0 Demo.host 6000 = Raise OSError /\
  fst (_read_session Demo.host "/tmp/p" "Nova" w) =
    Ok (Some (Demo.record "Nova" "2020-01-01T00:00:00+00:00"
                "2099-01-01T00:00:00+00:00" 6000)) /\
  stored Demo.host (snd (_read_session Demo.host "/tmp/p" "Nova" w))
    "/tmp/p" "Nova" = Some (Demo.nova_live 6000).
Proof. vm_compute. repeat split. Qed.

Lemma dead_owner_is_cleared_by_conflict_check_witness :
  let w := Demo.world_with [("Nova.json", Demo.nova_live 6000)] in
  _read_session Demo.host "/tmp/p" "Nova" w =
    (Ok (Some (Demo.record "Nova" "2020-01-01T00:00:00+00:00"
                 "2099-01-01T00:00:00+00:00" 6000)), tick w) /\
  exists w',
    _check_session_conflict Demo.host "/tmp/p" "Nova" w = (Ok None, w') /\
    stored Demo.host w' "/tmp/p" "Nova" = None.
Proof.
  intros w.
  destruct (dead_owner_is_cleared_by_conflict_check Demo.host "/tmp/p" "Nova"
              w (Demo.record "Nova" "2020-01-01T00:00:00+00:00"
                   "2099-01-01T00:00:00+00:00" 6000)
              4070908800000000 6000) as [Hread Hcheck].
  - reflexivity.
  - reflexivity.
  - reflexivity.
  - vm_compute. discriminate.
  - reflexivity.
  - lia.
  - vm_compute. discriminate.
  - reflexivity.
  - split; [exact Hread | apply Hcheck; reflexivity].
Defined.

(** C5, as amended.  On a file system that works, for a time-to-live
    [ttl] such that [ttl] seconds after the write-time [now] is a
    datetime:
    - when the read that follows the write is taken no later than that
      expiry, it returns a record whose [expires_at] is [now + ttl] (taken
      from the time of the write, not from [started_at]), and whose
      [started_at] is that of the record stored before, if that record
      had not expired;
    - [started_at] stays the same through any number of renewals, each
      of which finds the record of the one before it unexpired. *)
Theorem write_then_read_gives_now_plus_ttl h pk a :
  healthy h pk a ->
  (forall w ttl expires,
     tolerated h (stored h w pk a) ->
     expires_after h (utcnow h (reads w)) ttl expires ->
     (forall k, (reads w < k <= reads w + 2)%nat -> utcnow h k <= expires) ->
     exists d w',
       (_write_session h pk a ttl ≫= fun _ => _read_session h pk a) w =
         (Ok (Some d), w') /\
       expires = utcnow h (reads w) + ttl * 1000000 /\
       dict_get "expires_at" d = Some (JStr (isoformat h expires)) /\
       expiry h d = Some expires /\
       forall d0 e0 v,
         stored h w pk a = Some (JsonText (JDict d0)) ->
         expiry h d0 = Some e0 -> utcnow h (S (reads w)) <= e0 ->
         dict_get "started_at" d0 = Some v ->
         dict_get "started_at" d = Some v) /\
  (forall ttls w d0 v,
     stored h w pk a = Some (JsonText (JDict d0)) ->
     dict_get "started_at" d0 = Some v ->
     renewable h pk a ttls w ->
     exists ds w',
       renewals h pk a ttls w = (Ok ds, w') /\
       length ds = length ttls /\
       Forall (fun d => dict_get "started_at" d = Some v) ds /\
       exists d, stored h w' pk a = Some (JsonText (JDict d)) /\
                 dict_get "started_at" d = Some v).
Proof.
  intros Hh. split.
  - intros w ttl expires Ht He Hclock.
    destruct (write_then_read h w pk a ttl expires Hh Ht He Hclock)
      as (d & w' & E & H1 & H2 & H3 & _ & H5).
    exists d, w'. auto.
  - intros ttls w d0 v. now apply renewals_keep_started_at.
Qed.

(** A record written with a negative time-to-live has expired when it is
    read back: the read returns nothing. *)
Lemma write_then_read_negative_ttl :
  fst ((_write_session Demo.host "/tmp/p" "Nova" (-1) ≫=
        fun _ => _read_session Demo.host "/tmp/p" "Nova")
         Demo.empty_world) = Ok None.
Proof. vm_compute. reflexivity. Qed.

Lemma demo_healthy a : healthy Demo.host "/tmp/p" a.
Proof. split; [reflexivity | intros c; reflexivity]. Qed.

Lemma write_then_read_gives_now_plus_ttl_witness :
  let w := Demo.world_with [("Nova.json", Demo.nova_live 4242)] in
  (exists d w',
     (_write_session Demo.host "/tmp/p" "Nova" 300 ≫=
      fun _ => _read_session Demo.host "/tmp/p" "Nova") w =
       (Ok (Some d), w') /\
     dict_get "expires_at" d = Some (JStr "2026-01-01T00:05:00+00:00") /\
     dict_get "started_at" d = Some (JStr "2020-01-01T00:00:00+00:00")) /\
  (exists ds w',
     renewals Demo.host "/tmp/p" "Nova" [300; 300] w = (Ok ds, w') /\
     Forall (fun d => dict_get "started_at" d =
                      Some (JStr "2020-01-01T00:00:00+00:00")) ds).
Proof.
  intros w.
  destruct (write_then_read_gives_now_plus_ttl Demo.host "/tmp/p" "Nova"
              (demo_healthy "Nova")) as [Hone Hmany].
  split.
  - destruct (Hone w 300 1767225900000000) as (d & w' & E & _ & He & _ & Hs).
    + vm_compute. discriminate.
    + repeat split.
    + intros k Hk. unfold utcnow, Demo.host, Demo.T0. cbn [reads w] in Hk.
      unfold w, Demo.world_with in Hk. cbn [reads] in Hk. lia.
    + exists d, w'. split; [exact E|]. split; [exact He|].
      apply (Hs (Demo.record "Nova" "2020-01-01T00:00:00+00:00"
                   "2099-01-01T00:00:00+00:00" 4242) 4070908800000000).
      * reflexivity.
      * reflexivity.
      * vm_compute. discriminate.
      * reflexivity.
  - destruct (Hmany [300; 300] w
                (Demo.record "Nova" "2020-01-01T00:00:00+00:00"
                   "2099-01-01T00:00:00+00:00" 4242)
                (JStr "2020-01-01T00:00:00+00:00"))
      as (ds & w' & E & _ & Hall & _).
    + reflexivity.
    + reflexivity.
    + split; [vm_compute; discriminate|].
      split; [exists 1767225900000000; repeat split|].
      split; [vm_compute; discriminate|].
      split; [exists 1767225902000000; repeat split|].
      exact I.
    + exists ds, w'. split; [exact E | exact Hall].
Defined.





(** C10.  When the session file holds no unexpired record (it is
    missing, expired or malformed), the heartbeat exits with status 1 and
    writes no record: the directories are as before, or an expired file has
    been removed.  A heartbeat that ends normally, or that leaves the
    session file with a content it did not have before, found an unexpired
    record. *)
Theorem heartbeat_needs_an_active_session h a pk ttl as_json w :
  (~ active_session h w pk a ->
   exists w',
     session_heartbeat h a pk ttl as_json w = (Raise (Exit 1), w') /\
     calls w' = calls w /\
     (dirs w' = dirs w \/
      dirs w' = erased h w pk a /\
      exists d e, stored h w pk a = Some (JsonText (JDict d)) /\
                  expiry h d = Some e /\ e < utcnow h (reads w))) /\
  (forall w',
     session_heartbeat h a pk ttl as_json w = (Ok tt, w') ->
     active_session h w pk a) /\
  (forall r w',
     session_heartbeat h a pk ttl as_json w = (r, w') ->
     stored h w' pk a <> stored h w pk a ->
     stored h w' pk a <> None ->
     active_session h w pk a).
Proof.
  destruct (read_session_cases h w pk a)
    as (r & w1 & Er & Hr & _ & Hcalls & Hdirs & _).
  assert (Hsome : forall d, r = Ok (Some d) -> active_session h w pk a).
  { intros d ->.
    destruct (read_session_some h _ _ _ _ _ Er) as (Es & (e & He & Hle) & _).
    now exists d, e. }
  assert (Hother :
            (forall d, r <> Ok (Some d)) ->
            exists p, session_heartbeat h a pk ttl as_json w =
                      (Raise (Exit 1), printing w1 p)).
  { intros Hn. apply (heartbeat_without_session h w a pk ttl as_json r w1 Er).
    destruct Hr as [-> | [[d ->] | [-> | ->]]]; auto.
    now destruct (Hn d). }
  assert (Hdec : (exists d, r = Ok (Some d)) \/ (forall d, r <> Ok (Some d))).
  { destruct Hr as [-> | [[d ->] | [-> | ->]]];
      try (right; intros d; discriminate).
    left. now exists d. }
  split; [|split].
  - intros Hna. destruct Hdec as [[d ->] | Hn].
    { now destruct Hna; apply (Hsome d). }
    destruct (Hother Hn) as [p Hp]. exists (printing w1 p).
    split; [exact Hp|]. split; [exact Hcalls|].
    destruct Hdirs as [Hd | (Hd & _ & Hexp)]; [now left | now right].
  - intros w' E. destruct Hdec as [[d ->] | Hn]; [now apply (Hsome d)|].
    destruct (Hother Hn) as [p Hp]. rewrite Hp in E. discriminate.
  - intros r' w' E Hchanged Hthere.
    destruct Hdec as [[d ->] | Hn]; [now apply (Hsome d)|].
    destruct (Hother Hn) as [p Hp]. rewrite Hp in E. injection E as <- <-.
    destruct Hdirs as [Hd | (Hd & _)].
    + destruct Hchanged. unfold stored, file_at. cbn. now rewrite Hd.
    + destruct Hthere. now apply (stored_erased h w).
Qed.

Lemma heartbeat_needs_an_active_session_witness :
  let w := Demo.world_with [("Nova.json", Demo.nova_expired 4242)] in
  exists w',
    session_heartbeat Demo.host "Nova" "/tmp/p" 300 true w =
      (Raise (Exit 1), w') /\
    calls w' = calls w /\
    (dirs w' = dirs w \/
     dirs w' = erased Demo.host w "/tmp/p" "Nova" /\
     exists d e,
       stored Demo.host w "/tmp/p" "Nova" = Some (JsonText (JDict d)) /\
       expiry Demo.host d = Some e /\
       e < utcnow Demo.host (reads w)).
Proof.
  intros w.
  apply (heartbeat_needs_an_active_session Demo.host "Nova" "/tmp/p" 300
           true w).
  intros (d & e & Es & He & Hle).
  injection Es as <-. injection He as <-.
  revert Hle. vm_compute. intros Hle. now apply Hle.
Defined.

(** ** Process ancestry and session discovery *)

Section Discovery.
Context (h : Host).

(** With enough fuel the walk answers whether the target is in the
    chain. *)
Lemma ancestry_walk_chain target n :
  forall current l fuel,
    chain h n current = Some l -> (n <= fuel)%nat ->
    ancestry_walk h fuel target current = Ok (existsb (Z.eqb target) l).
Proof.
  induction n as [|n IH]; intros current l fuel Hc Hfuel.
  - cbn in Hc. destruct fuel; cbn;
      destruct (1 <? current); cbn in *; try discriminate;
      now injection Hc as <-.
  - destruct fuel as [|fuel]; [lia|]. cbn in Hc |- *.
    destruct (1 <? current); cbn in *; [|now injection Hc as <-].
    destruct (current =? target) eqn:Et.
    + apply Z.eqb_eq in Et. subst current.
      destruct (ps_ppid h target);
        try (injection Hc as <-; cbn; now rewrite Z.eqb_refl).
      destruct (chain h n ppid); [|discriminate].
      injection Hc as <-. cbn. now rewrite Z.eqb_refl.
    + rewrite Z.eqb_sym in Et.
      destruct (ps_ppid h current);
        try (injection Hc as <-; cbn; now rewrite Et).
      destruct (chain h n ppid) as [l'|] eqn:Ec; [|discriminate].
      injection Hc as <-. cbn. rewrite Et. cbn.
      apply IH; [exact Ec | lia].
Qed.

Lemma pid_in_ancestry_chain n l fuel pid :
  chain h n (getpid h) = Some l -> (n <= fuel)%nat ->
  _pid_in_ancestry h fuel pid = Ok (in_ancestry h l pid).
Proof.
  intros Hc Hfuel. unfold _pid_in_ancestry, in_ancestry.
  destruct (pid <=? 1) eqn:E1.
  - apply Z.leb_le in E1.
    destruct (1 <? pid) eqn:E2; [apply Z.ltb_lt in E2; lia | reflexivity].
  - apply Z.leb_gt in E1.
    destruct (1 <? pid) eqn:E2; [|apply Z.ltb_ge in E2; lia].
    destruct (which_ps h); [|reflexivity]. cbn.
    now apply ancestry_walk_chain with (n := n).
Qed.

(** One turn of the loop of [_detect_agent_from_session]: the file is
    loaded, or skipped. *)
Lemma detect_load w dir f :
  try_except
    (t ← read_text h dir f; data ← json_loads t; mret (Some data))
    detect_caught (fun _ => mret None) w =
  (Ok (if fs_fault h ReadText dir f then None
       else match file_at w dir f with
            | Some (JsonText data) => Some data
            | _ => None
            end), w).
Proof.
  unfold read_text, json_loads.
  destruct (fs_fault h ReadText dir f); [reflexivity|].
  run. destruct (file_at w dir f) as [[raw|doc]|]; reflexivity.
Qed.

Lemma detect_loop_find n l w dir files fuel :
  chain h n (getpid h) = Some l -> (n <= fuel)%nat ->
  owners_known h w dir files ->
  detect_loop h fuel dir files w =
  (Ok (stem <$> find (owned_by h w dir l) files), w).
Proof.
  intros Hc Hfuel. induction files as [|f rest IH]; intros Hk.
  - reflexivity.
  - inversion Hk as [|? ? [o Ho] Hrest]; subst.
    cbn [detect_loop find].
    unfold mbind at 1, M_bind at 1, bind at 1. rewrite detect_load.
    unfold owned_by. unfold file_owner in Ho |- *.
    destruct (fs_fault h ReadText dir f); [now apply IH|].
    destruct (file_at w dir f) as [[raw|doc]|]; try (now apply IH).
    destruct doc; try discriminate.
    unfold as_dict. run.
    destruct (py_int h _) as [pid| |]; try discriminate.
    rewrite (pid_in_ancestry_chain n l fuel pid Hc Hfuel).
    destruct (in_ancestry h l pid); [reflexivity|]. now apply IH.
Qed.

Lemma dir_exists_eq w dir :
  dir_exists dir w =
  (Ok (match dirs w !! dir with Some _ => true | None => false end), w).
Proof.
  unfold dir_exists. run. destruct (dirs w !! dir) eqn:E.
  - rewrite bool_decide_eq_true_2; [reflexivity | eauto].
  - rewrite bool_decide_eq_false_2; [reflexivity | ].
    intros [x Hx]. discriminate.
Qed.

(** A directory that is not there has no session files. *)
Lemma json_names_no_dir w dir :
  dirs w !! dir = None -> json_names w dir = [].
Proof.
  intros E. unfold json_names. rewrite E. cbn.
  now rewrite map_to_list_empty.
Qed.

(** [json_names] lists the files of the directory whose names end in
    [.json], each once, in the order of their names. *)
Lemma json_names_in w dir f :
  In f (json_names w dir) <->
  is_json_name f = true /\ is_Some (file_at w dir f).
Proof.
  unfold json_names, file_at. rewrite sort_by_in, filter_In.
  rewrite <- list_elem_of_In, list_elem_of_fmap.
  destruct (dirs w !! dir) as [d|] eqn:Ed; cbn.
  - split.
    + intros [([g t] & -> & Hin) Hj]. split; [exact Hj|].
      apply elem_of_map_to_list in Hin. cbn. eauto.
    + intros [Hj [t Ht]]. split; [|exact Hj].
      exists (f, t). split; [reflexivity|]. now apply elem_of_map_to_list.
  - rewrite map_to_list_empty. split.
    + intros [(x & _ & Hin) _]. now apply elem_of_nil in Hin.
    + intros [_ [t Ht]]. discriminate.
Qed.


Lemma json_names_sorted w dir :
  Sorted (fun a b => String.leb a b = true) (json_names w dir).
Proof. apply sort_by_sorted, String.leb_total. Qed.


(** Discovery, in terms of the session files of the project. *)
Lemma detect_eq fuel pk w :
  _detect_agent_from_session h fuel pk w =
  match json_names w (_project_hash h pk) with
  | [] => (Ok None, w)
  | [f] => (Ok (Some (stem f)), w)
  | files => detect_loop h fuel (_project_hash h pk) files w
  end.
Proof.
  unfold _detect_agent_from_session.
  unfold mbind at 1, M_bind at 1, bind at 1. rewrite dir_exists_eq.
  destruct (dirs w !! _project_hash h pk) eqn:Ed; cbn [negb].
  - unfold glob_json. run.
    now destruct (json_names w (_project_hash h pk)) as [|f1 [|f2 rest]].
  - now rewrite json_names_no_dir.
Qed.

(** With a finite ancestry and pids that can be taken, discovery
    returns, and changes nothing. *)
Lemma detect_returns n l fuel pk w :
  chain h n (getpid h) = Some l -> (n <= fuel)%nat ->
  owners_known h w (_project_hash h pk) (json_names w (_project_hash h pk)) ->
  exists sa, _detect_agent_from_session h fuel pk w = (Ok sa, w).
Proof.
  intros Hc Hfuel Hk. rewrite detect_eq.
  destruct (json_names w (_project_hash h pk)) as [|f [|g rest]] eqn:En;
    eauto.
  rewrite (detect_loop_find n l w _ _ fuel Hc Hfuel Hk). eauto.
Qed.

End Discovery.

(** The stem of the session file of an agent is the name of the agent. *)
Lemma rfind_dot_json a :
  rfind_dot (String.append a ".json") = Some (String.length a).
Proof.
  induction a as [|c a IH]; [reflexivity|].
  change (String.append (String c a) ".json")
    with (String c (String.append a ".json")).
  cbn [rfind_dot String.length]. now rewrite IH.
Qed.

Lemma substring_prefix a b :
  substring 0 (String.length a) (String.append a b) = a.
Proof.
  induction a as [|c a IH].
  - now destruct b.
  - change (String.append (String c a) b)
      with (String c (String.append a b)).
    cbn [String.length substring]. now rewrite IH.
Qed.

Lemma length_append a b :
  String.length (String.append a b) = (String.length a + String.length b)%nat.
Proof.
  induction a as [|c a IH]; [reflexivity|].
  change (String.append (String c a) b) with (String c (String.append a b)).
  cbn [String.length]. now rewrite IH.
Qed.

Lemma stem_session_file a :
  a <> "" -> stem (String.append a ".json") = a.
Proof.
  intros Hne. unfold stem. rewrite rfind_dot_json, length_append.
  assert (Hl : (0 < String.length a)%nat).
  { destruct a; [contradiction | cbn; lia]. }
  destruct (0 <? String.length a)%nat eqn:E1;
    [|apply Nat.ltb_ge in E1; lia].
  destruct (String.length a <?
            String.length a + String.length ".json" - 1)%nat eqn:E2;
    [|apply Nat.ltb_ge in E2; cbn in E2; lia].
  cbn [andb]. apply substring_prefix.
Qed.

(** ** The remote fallback and identity resolution *)








(** A failing [list_agents] makes the remote fallback raise. *)
Lemma find_resumable_agent_raises c pk w e :
  list_agents c pk = Raise e ->
  _find_resumable_agent c pk w = (Raise e, calling w (CallListAgents pk)).
Proof.
  intros Hl. unfold _find_resumable_agent.
  unfold mbind at 1, M_bind at 1, bind at 1, log_call.
  unfold mbind at 1, M_bind at 1, bind at 1, lift at 1. now rewrite Hl.
Qed.

(** Identity resolution once the explicit name, the environment and the
    session files have given nothing. *)
Lemma resolve_falls_back h fuel pk agent client w sa w1 :
  nonempty agent = false ->
  nonempty (py_or (environ h "AGENT_MAIL_AGENT") (environ h "AGENT_NAME"))
    = false ->
  _detect_agent_from_session h fuel pk w = (Ok sa, w1) ->
  nonempty sa = false ->
  _resolve_agent_name h fuel pk agent client w =
  match client with
  | Some c =>
      match _find_resumable_agent c pk w1 with
      | (Ok (Some (item :: items)), w2) =>
          (Ok (get_name (item :: items), Some "recent"), w2)
      | (Ok _, w2) => (Ok (None, None), w2)
      | (Raise e, w2) => (Raise e, w2)
      | (Hang, w2) => (Hang, w2)
      end
  | None => (Ok (None, None), w1)
  end.
Proof.
  intros Ha He Hd Hs. unfold _resolve_agent_name. rewrite Ha, He.
  unfold mbind at 1, M_bind at 1, bind at 1. rewrite Hd, Hs.
  destruct client as [c|]; [|reflexivity].
  unfold mbind at 1, M_bind at 1, bind at 1.
  destruct (_find_resumable_agent c pk w1) as [[[[|item items]|]| |] w2];
    reflexivity.
Qed.

(** ** The claims about identity resolution *)

(** C1, as amended.  In the remote fallback of identity resolution
    (step 4) a failing [list_agents] is not turned into "no candidate": the
    exception leaves [_resolve_agent_name], and the command that called it
    prints the error and exits with status 1. *)
Theorem rpc_failure_in_fallback_propagates h fuel pk agent c e w sa w1 :
  nonempty agent = false ->
  nonempty (py_or (environ h "AGENT_MAIL_AGENT") (environ h "AGENT_NAME"))
    = false ->
  _detect_agent_from_session h fuel pk w = (Ok sa, w1) ->
  nonempty sa = false ->
  list_agents c pk = Raise e ->
  _resolve_agent_name h fuel pk agent (Some c) w =
    (Raise e, calling w1 (CallListAgents pk)) /\
  (is_Exit e = false ->
   forall A (rest : option string * option string -> M A),
     command (_resolve_agent_name h fuel pk agent (Some c) ≫= rest) w =
     (Raise (Exit 1),
      printing (calling w1 (CallListAgents pk)) (ErrText (MsgError e)))).
Proof.
  intros Ha He Hd Hs Hl.
  assert (Er : _resolve_agent_name h fuel pk agent (Some c) w =
               (Raise e, calling w1 (CallListAgents pk))).
  { rewrite (resolve_falls_back h fuel pk agent (Some c) w sa w1 Ha He Hd Hs).
    now rewrite (find_resumable_agent_raises c pk w1 e Hl). }
  split; [exact Er|]. intros Hne A rest.
  unfold command. rewrite try_caught with (e := e)
                                          (w' := calling w1 (CallListAgents pk)).
  - reflexivity.
  - now apply bind_raise.
  - now rewrite Hne.
Qed.

(** With no explicit name, no environment variable and no session file,
    and a server that is down, resolution raises the transport error. *)
Lemma resolution_raises_when_server_is_down :
  _resolve_agent_name Demo.host 0 "/tmp/p" None (Some Demo.down)
    Demo.empty_world =
  (Raise (TransportError "connection refused"),
   calling Demo.empty_world (CallListAgents "/tmp/p")).
Proof. vm_compute. reflexivity. Qed.

Lemma rpc_failure_in_fallback_propagates_witness :
  command (_resolve_agent_name Demo.host 0 "/tmp/p" None (Some Demo.down)
             ≫= fun _ => mret tt) Demo.empty_world =
  (Raise (Exit 1),
   printing (calling Demo.empty_world (CallListAgents "/tmp/p"))
     (ErrText (MsgError (TransportError "connection refused")))).
Proof.
  apply (rpc_failure_in_fallback_propagates Demo.host 0 "/tmp/p" None
           Demo.down (TransportError "connection refused")
           Demo.empty_world None Demo.empty_world); reflexivity.
Defined.

(** C4.  Identity resolution returns the first signal that is there, in
    this order: a non-empty explicit name, with no source tag; the
    environment override, tagged [env]; the agent of the session files,
    tagged [session]; the agent that the remote fallback finds, tagged
    [recent]; otherwise nothing.  (Session discovery does return when the
    ancestry of the process is finite and the pids in the session files can
    be taken.) *)
Theorem resolution_follows_precedence h fuel pk agent client w :
  let env_agent :=
    py_or (environ h "AGENT_MAIL_AGENT") (environ h "AGENT_NAME") in
  (nonempty agent = true ->
   _resolve_agent_name h fuel pk agent client w = (Ok (agent, None), w)) /\
  (nonempty agent = false -> nonempty env_agent = true ->
   _resolve_agent_name h fuel pk agent client w =
     (Ok (env_agent, Some "env"), w)) /\
  (forall sa w1,
     nonempty agent = false -> nonempty env_agent = false ->
     _detect_agent_from_session h fuel pk w = (Ok sa, w1) ->
     (nonempty sa = true ->
      _resolve_agent_name h fuel pk agent client w =
        (Ok (sa, Some "session"), w1)) /\
     (nonempty sa = false ->
      (forall c item items w2,
         client = Some c ->
         _find_resumable_agent c pk w1 = (Ok (Some (item :: items)), w2) ->
         _resolve_agent_name h fuel pk agent client w =
           (Ok (get_name (item :: items), Some "recent"), w2)) /\
      (forall c w2,
         client = Some c ->
         _find_resumable_agent c pk w1 = (Ok None, w2) ->
         _resolve_agent_name h fuel pk agent client w =
           (Ok (None, None), w2)) /\
      (client = None ->
       _resolve_agent_name h fuel pk agent client w =
         (Ok (None, None), w1)))) /\
  (forall n l,
     chain h n (getpid h) = Some l -> (n <= fuel)%nat ->
     owners_known h w (_project_hash h pk)
       (json_names w (_project_hash h pk)) ->
     exists sa, _detect_agent_from_session h fuel pk w = (Ok sa, w)).
Proof.
  cbv zeta. split; [|split; [|split]].
  - intros Ha. unfold _resolve_agent_name. now rewrite Ha.
  - intros Ha He. unfold _resolve_agent_name. now rewrite Ha, He.
  - intros sa w1 Ha He Hd. split.
    + intros Hs. unfold _resolve_agent_name. rewrite Ha, He.
      unfold mbind at 1, M_bind at 1, bind at 1. now rewrite Hd, Hs.
    + intros Hs.
      rewrite (resolve_falls_back h fuel pk agent client w sa w1 Ha He Hd Hs).
      split; [|split].
      * intros c item items w2 -> Hf. now rewrite Hf.
      * intros c w2 -> Hf. now rewrite Hf.
      * now intros ->.
  - intros n l. apply detect_returns.
Qed.

Lemma resolution_follows_precedence_witness :
  let nova := JDict [("name", JStr "Nova");
                     ("last_active_ts", JStr "2026-01-01T00:00:00Z");
                     ("contact_policy", JStr "normal")] in
  let w := Demo.world_with [("Olive.json", Demo.nova_live 4242)] in
  fst (_resolve_agent_name Demo.env_host 0 "/tmp/p" (Some "Explicit")
         (Some (Demo.serving [nova])) w) = Ok (Some "Explicit", None) /\
  fst (_resolve_agent_name Demo.env_host 0 "/tmp/p" None
         (Some (Demo.serving [nova])) w) = Ok (Some "BlueLake", Some "env") /\
  fst (_resolve_agent_name Demo.host 0 "/tmp/p" None
         (Some (Demo.serving [nova])) w) = Ok (Some "Olive", Some "session") /\
  fst (_resolve_agent_name Demo.host 0 "/tmp/p" None
         (Some (Demo.serving [nova])) Demo.empty_world) =
    Ok (Some "Nova", Some "recent") /\
  fst (_resolve_agent_name Demo.host 0 "/tmp/p" None None Demo.empty_world) =
    Ok (None, None).
Proof.
  intros nova w.
  pose proof (resolution_follows_precedence Demo.env_host 0 "/tmp/p"
                (Some "Explicit") (Some (Demo.serving [nova])) w)
    as (Hexplicit & _ & _ & _).
  pose proof (resolution_follows_precedence Demo.env_host 0 "/tmp/p"
                None (Some (Demo.serving [nova])) w) as (_ & Henv & _ & _).
  pose proof (resolution_follows_precedence Demo.host 0 "/tmp/p"
                None (Some (Demo.serving [nova])) w) as (_ & _ & Hsession & _).
  pose proof (resolution_follows_precedence Demo.host 0 "/tmp/p"
                None (Some (Demo.serving [nova])) Demo.empty_world)
    as (_ & _ & Hrecent & _).
  pose proof (resolution_follows_precedence Demo.host 0 "/tmp/p"
                None None Demo.empty_world) as (_ & _ & Hnone & _).
  split; [|split; [|split; [|split]]].
  - exact (f_equal fst (Hexplicit eq_refl)).
  - exact (f_equal fst (Henv eq_refl eq_refl)).
  - exact (f_equal fst
             (proj1 (Hsession (Some "Olive") w eq_refl eq_refl eq_refl)
                eq_refl)).
  - exact (f_equal fst
             (proj1 (proj2 (Hrecent None Demo.empty_world eq_refl eq_refl
                              eq_refl) eq_refl)
                (Demo.serving [nova]) _ _
                (calling Demo.empty_world (CallListAgents "/tmp/p"))
                eq_refl eq_refl)).
  - exact (f_equal fst
             (proj2 (proj2 (proj2 (Hnone None Demo.empty_world eq_refl
                                     eq_refl eq_refl) eq_refl))
                eq_refl)).
Defined.





(** * More on the session store *)

(** ** One session file and the others *)

Section Frame.
Context (h : Host).

Lemma file_at_dirs w w' dir name :
  dirs w' = dirs w -> file_at w' dir name = file_at w dir name.
Proof. unfold file_at. now intros ->. Qed.

Lemma stored_dirs w w' pk a :
  dirs w' = dirs w -> stored h w' pk a = stored h w pk a.
Proof. apply file_at_dirs. Qed.

(** Removing or saving a session file changes no other file. *)
Lemma file_at_erased w w' pk a dir name :
  dirs w' = erased h w pk a ->
  (dir, name) <> _session_file h pk a ->
  file_at w' dir name = file_at w dir name.
Proof.
  unfold erased, file_at, _session_file. intros -> Hne.
  destruct (dirs w !! _project_hash h pk) as [d|] eqn:Ed; [|reflexivity].
  destruct (decide (dir = _project_hash h pk)) as [->|Hd].
  - rewrite lookup_insert_eq, Ed. cbn.
    apply lookup_delete_ne. congruence.
  - now rewrite lookup_insert_ne by congruence.
Qed.












(** ** What a successful write leaves *)

Lemma pid_carry existing pk a now expires pid :
  dict_get "pid"
    (carry_started_at existing (new_session h pk a now expires pid)) =
  Some (JInt pid).
Proof. destruct existing as [[|item items]|]; reflexivity. Qed.

Lemma carry_nonempty existing pk a now expires pid :
  carry_started_at existing (new_session h pk a now expires pid) <> [].
Proof. destruct existing as [[|item items]|]; discriminate. Qed.

(** A write that returns has stored what it returns: a record with the
    stable pid, expiring [ttl] seconds after the clock reading of the
    write. *)
Lemma write_session_ok w pk a ttl d w' :
  _write_session h pk a ttl w = (Ok d, w') ->
  exists existing w2 expires,
    _read_session h pk a (tick (ensure_dir h w pk)) = (Ok existing, w2) /\
    datetime_add (utcnow h (reads w)) (ttl * 1000000) = Ok expires /\
    d = carry_started_at existing
          (new_session h pk a (utcnow h (reads w)) expires (stable_pid h)) /\
    w' = with_dirs w2 (saved h w2 pk a (JsonText (JDict d))) /\
    stored h w' pk a = Some (JsonText (JDict d)).
Proof.
  intros E.
  destruct (fs_fault h Mkdir (_project_hash h pk) "") eqn:Em.
  { rewrite write_session_mkdir_fault in E by assumption. discriminate. }
  rewrite write_session_eq in E by assumption. cbv zeta in E.
  unfold timedelta_seconds in E.
  destruct (Z.abs (ttl / 86400) <=? TIMEDELTA_MAX_DAYS); [|discriminate].
  destruct (datetime_add _ _) as [expires| |] eqn:Ea; try discriminate.
  destruct (_read_session h pk a (tick (ensure_dir h w pk)))
    as [[existing| |] w2] eqn:Er; try discriminate.
  destruct (fs_fault h WriteText _ _); [discriminate|].
  injection E as <- <-.
  exists existing, w2, expires. repeat split; auto.
  now apply (stored_saved h w2).
Qed.

Lemma is_json_name_session_file a :
  is_json_name (String.append a ".json") = true.
Proof.
  unfold is_json_name. rewrite length_append. cbn [String.length].
  replace (String.length a + 5 - 5)%nat with (String.length a) by lia.
  replace (5 <=? String.length a + 5)%nat with true
    by (symmetry; apply Nat.leb_le; lia).
  cbn [andb]. apply String.eqb_eq.
  induction a as [|c a IH]; [reflexivity|].
  change (String.append (String c a) ".json")
    with (String c (String.append a ".json")).
  cbn [String.length substring]. exact IH.
Qed.

End Frame.

(** * More on the commands *)

Section CommandsMore.
Context (h : Host).


(** What [isoformat] prints for the expiry of a write is read back. *)
Lemma expiry_written existing pk a now expires pid :
  fromisoformat h (replace_Z (isoformat h expires)) = Some (Aware expires) ->
  expiry h (carry_started_at existing (new_session h pk a now expires pid))
  = Some expires.
Proof.
  intros Hiso. unfold expiry. rewrite expiry_carry. cbn. now rewrite Hiso.
Qed.

Lemma owner_written existing pk a now expires pid :
  owner (carry_started_at existing (new_session h pk a now expires pid))
  = JInt pid.
Proof. unfold owner. now rewrite pid_carry. Qed.

(** A write on a healthy file system, over a file that a read copes
    with. *)
Lemma write_session_returns w pk a ttl expires :
  healthy h pk a ->
  tolerated h (stored h w pk a) ->
  expires_after h (utcnow h (reads w)) ttl expires ->
  exists d w',
    _write_session h pk a ttl w = (Ok d, w') /\
    stored h w' pk a = Some (JsonText (JDict d)) /\
    owner d = JInt (stable_pid h) /\
    expiry h d = Some expires /\
    out w' = out w /\ calls w' = calls w /\
    (reads w' = S (reads w) \/ reads w' = S (S (reads w))) /\
    forall d0 e0 v,
      stored h w pk a = Some (JsonText (JDict d0)) ->
      expiry h d0 = Some e0 -> utcnow h (S (reads w)) <= e0 ->
      dict_get "started_at" d0 = Some v ->
      dict_get "started_at" d = Some v.
Proof.
  intros [Hm Hf] Ht (Hdelta & Hadd & Hiso).
  assert (Hr1 : reads (tick (ensure_dir h w pk)) = S (reads w)).
  { unfold ensure_dir. now destruct (dirs w !! _project_hash h pk). }
  assert (Ho1 : out (tick (ensure_dir h w pk)) = out w /\
                calls (tick (ensure_dir h w pk)) = calls w).
  { unfold ensure_dir. now destruct (dirs w !! _project_hash h pk). }
  destruct (read_session_cases h (tick (ensure_dir h w pk)) pk a)
    as (r & w2 & Er & _ & Hout & Hcalls & _ & Hreads).
  destruct (read_session_tolerated h (tick (ensure_dir h w pk)) pk a)
    as (existing & w2' & Er' & _).
  { now rewrite stored_ensure_dir. }
  rewrite Er in Er'. injection Er' as -> <-.
  eexists _, _. split; [|split; [|split; [|split; [|split; [|split;
    [|split]]]]]].
  - rewrite write_session_eq by assumption. cbv zeta.
    rewrite Hdelta, Hadd, Er, (Hf WriteText). reflexivity.
  - now apply (stored_saved h w2).
  - apply owner_written.
  - now apply expiry_written.
  - cbn. rewrite Hout. apply Ho1.
  - cbn. rewrite Hcalls. apply Ho1.
  - cbn. rewrite Hr1 in Hreads. destruct Hreads as [-> | ->]; auto.
  - intros d0 e0 v Es0 Ee0 Hle0 Hv.
    assert (existing = Some d0) as ->.
    { assert (El : _read_session h pk a (tick (ensure_dir h w pk)) =
                   (Ok (Some d0), tick (tick (ensure_dir h w pk)))).
      { apply read_session_live with (e := e0); auto.
        - now rewrite stored_ensure_dir.
        - now rewrite Hr1. }
      rewrite El in Er. now injection Er as <- _. }
    now apply started_at_carry.
Qed.

End CommandsMore.

(** ** What leaves the log of remote calls alone *)

Section Calls.
Context (h : Host).





End Calls.

(** ** Running a command step by step *)

Lemma command_bind_ok {A B} (c : M A) (k : A -> M B) w a w1 :
  c w = (Ok a, w1) -> command (c ≫= k) w = command (k a) w1.
Proof.
  intros E. unfold command, try_except.
  unfold mbind at 1, M_bind at 1, bind at 1. now rewrite E.
Qed.

Lemma command_bind_raise {A B} (c : M A) (k : A -> M B) w e w1 :
  c w = (Raise e, w1) -> is_Exit e = false ->
  command (c ≫= k) w = (Raise (Exit 1), printing w1 (ErrText (MsgError e))).
Proof.
  intros E He. unfold command, try_except.
  unfold mbind at 1, M_bind at 1, bind at 1. rewrite E, He. reflexivity.
Qed.

(** * More on the listing and on the text of an expiry *)

Section Listing.
Context (h : Host).

(** Reading any session of the project leaves in place a record that has
    not expired by then. *)
Lemma read_session_keeps_live w pk x a d e :
  stored h w pk a = Some (JsonText (JDict d)) ->
  expiry h d = Some e -> utcnow h (reads w) <= e ->
  stored h (snd (_read_session h pk x w)) pk a = Some (JsonText (JDict d)).
Proof.
  intros Es Ee Hle.
  destruct (read_session_cases h w pk x)
    as (r & w' & E & _ & _ & _ & Hdirs & _).
  rewrite E. cbn [snd].
  destruct Hdirs as [Hd | (Hd & _ & d' & e' & Es' & Ee' & Hlt)].
  - now rewrite (stored_dirs h w w').
  - destruct (decide (_session_file h pk a = _session_file h pk x))
      as [Heq|Hne].
    + assert (Hsame : stored h w pk x = stored h w pk a).
      { unfold stored. unfold _session_file in Heq.
        injection Heq as Heq. now rewrite Heq. }
      rewrite Hsame, Es in Es'. injection Es' as <-.
      rewrite Ee in Ee'. injection Ee' as <-. lia.
    + unfold stored. rewrite (file_at_erased h w w' pk x); auto.
Qed.

(** After a read, each session file is as before, or gone. *)
Lemma read_session_stored_after w pk x y :
  stored h (snd (_read_session h pk x w)) pk y = stored h w pk y \/
  stored h (snd (_read_session h pk x w)) pk y = None.
Proof.
  destruct (read_session_cases h w pk x)
    as (r & w' & E & _ & _ & _ & Hdirs & _).
  rewrite E. cbn [snd].
  destruct Hdirs as [Hd | (Hd & _)].
  - left. now apply stored_dirs.
  - destruct (decide (_session_file h pk y = _session_file h pk x))
      as [Heq|Hne].
    + right. assert (Hn := stored_erased h w w' pk x Hd).
      unfold stored in *. unfold _session_file in Heq.
      injection Heq as Heq. now rewrite Heq.
    + left. unfold stored. now rewrite (file_at_erased h w w' pk x).
Qed.

Lemma tolerated_after w w' pk files :
  (forall y, stored h w' pk y = stored h w pk y \/ stored h w' pk y = None) ->
  Forall (fun f => tolerated h (stored h w pk (stem f))) files ->
  Forall (fun f => tolerated h (stored h w' pk (stem f))) files.
Proof.
  intros Hafter Hall. eapply List.Forall_impl; [|exact Hall].
  intros f Ht. cbn beta in *.
  destruct (Hafter (stem f)) as [-> | ->]; [exact Ht | exact I].
Qed.

(** The listing loop returns when [_read_session] copes with every
    file. *)
Lemma read_sessions_returns pk files :
  forall w,
    Forall (fun f => tolerated h (stored h w pk (stem f))) files ->
    exists l w', read_sessions h pk files w = (Ok l, w').
Proof.
  induction files as [|f rest IH]; intros w Hall.
  - now exists [], w.
  - inversion Hall as [|? ? Hf Hrest]; subst.
    destruct (read_session_tolerated h w pk (stem f) Hf)
      as (r & w1 & Er & _).
    destruct (IH w1) as (l & w2 & El).
    { apply (tolerated_after w); [|exact Hrest].
      intros y. assert (Ha := read_session_stored_after w pk (stem f) y).
      now rewrite Er in Ha. }
    cbn [read_sessions]. rewrite (bind_ok _ _ _ _ _ Er).
    rewrite (bind_ok _ _ _ _ _ El). now eexists _, _.
Qed.

(** The listing loop returns every record that stays unexpired while
    the loop runs. *)
Lemma read_sessions_complete pk a d e files :
  a <> "" -> d <> [] ->
  fs_fault h ReadText (_project_hash h pk) (String.append a ".json") = false ->
  expiry h d = Some e ->
  forall w,
    Forall (fun f => tolerated h (stored h w pk (stem f))) files ->
    In (String.append a ".json") files ->
    stored h w pk a = Some (JsonText (JDict d)) ->
    (forall k, (reads w <= k < reads w + length files)%nat ->
               utcnow h k <= e) ->
    exists l w', read_sessions h pk files w = (Ok l, w') /\ In d l.
Proof.
  intros Ha Hd Hfault He.
  induction files as [|f rest IH]; intros w Hall Hin Hs Hclock;
    [destruct Hin|].
  inversion Hall as [|? ? Hf Hrest]; subst.
  assert (Hnow : utcnow h (reads w) <= e).
  { apply Hclock. cbn [length]. lia. }
  destruct (read_session_tolerated h w pk (stem f) Hf)
    as (r & w1 & Er & Hreads).
  assert (Hrest1 : Forall (fun g => tolerated h (stored h w1 pk (stem g)))
                     rest).
  { apply (tolerated_after w); [|exact Hrest].
    intros y. assert (Hy := read_session_stored_after w pk (stem f) y).
    now rewrite Er in Hy. }
  cbn [read_sessions]. rewrite (bind_ok _ _ _ _ _ Er).
  destruct Hin as [-> | Hin].
  - rewrite (stem_session_file a Ha) in Er.
    rewrite (read_session_live h w pk a d e Hs Hfault He Hnow) in Er.
    injection Er as <- <-.
    destruct (read_sessions_returns pk rest _ Hrest1) as (l & w2 & El).
    rewrite (bind_ok _ _ _ _ _ El).
    destruct d as [|item items]; [contradiction|].
    eexists _, _. split; [reflexivity|]. now left.
  - destruct (IH w1 Hrest1 Hin) as (l & w2 & El & Hl).
    + assert (Hk := read_session_keeps_live w pk (stem f) a d e Hs He Hnow).
      now rewrite Er in Hk.
    + intros k Hk. apply Hclock. cbn [length]. lia.
    + rewrite (bind_ok _ _ _ _ _ El).
      eexists _, _. split; [reflexivity|].
      destruct r as [[|item items]|]; auto. now right.
Qed.

(** The text of a remaining time is never the question mark that
    stands for a timestamp that cannot be read. *)
Lemma append_unit_known p c :
  String.append p (String c "") = "?" -> c = "?"%char.
Proof.
  destruct p as [|x p]; cbn; [now intros [= ->]|].
  intros [= _ E]. destruct p; discriminate.
Qed.

Lemma format_remaining_known delta : format_remaining delta <> "?".
Proof.
  unfold format_remaining. intros E.
  destruct (_ <? 60); [apply append_unit_known in E; discriminate|].
  destruct (_ <? 3600); apply append_unit_known in E; discriminate.
Qed.

End Listing.

(** * The walks of the process tree *)

Section Walks.
Context (h : Host).

(** With [ps] on the path the hook walks as the command line does. *)
Lemma is_ancestor_walk fuel candidate :
  which_ps h = true ->
  forall current,
    _is_ancestor h fuel candidate current =
    ancestry_walk h fuel candidate current.
Proof.
  intros Hps. induction fuel as [|fuel IH]; intros current.
  - reflexivity.
  - cbn [_is_ancestor ancestry_walk].
    destruct (negb (1 <? current)); [reflexivity|].
    destruct (current =? candidate); [reflexivity|].
    unfold _get_ppid. rewrite Hps. cbn [negb].
    destruct (ps_ppid h current) as [| | |p]; try reflexivity.
    destruct (p =? 0) eqn:E0; [|apply IH].
    apply Z.eqb_eq in E0. subst p. now destruct fuel.
Qed.





(** On a set of pids that [ps] never leaves and that does not hold the
    target, the walk uses up any fuel. *)
Lemma ancestry_walk_cycle (cycle : Z -> Prop) target :
  (forall p, cycle p ->
     1 < p /\ p <> target /\ exists q, ps_ppid h p = PsParent q /\ cycle q) ->
  forall fuel current,
    cycle current -> ancestry_walk h fuel target current = Hang.
Proof.
  intros Hcycle. induction fuel as [|fuel IH]; intros current Hin;
    destruct (Hcycle current Hin) as (H1 & Hne & q & Hq & Hin');
    cbn [ancestry_walk];
    replace (1 <? current) with true by (symmetry; apply Z.ltb_lt; lia);
    replace (current =? target) with false
      by (symmetry; apply Z.eqb_neq; lia);
    cbn [negb]; [reflexivity|].
  rewrite Hq. now apply IH.
Qed.

End Walks.

(** * Files that are only ever removed *)

Section OnlyRemoves.
Context (h : Host).

Lemma only_removes_refl w : only_removes w w.
Proof. intros dir name. now left. Qed.

Lemma only_removes_trans w1 w2 w3 :
  only_removes w1 w2 -> only_removes w2 w3 -> only_removes w1 w3.
Proof.
  intros H12 H23 dir name.
  destruct (H23 dir name) as [-> | ->]; [apply H12 | now right].
Qed.

Lemma only_removes_dirs w w' : dirs w' = dirs w -> only_removes w w'.
Proof. intros E dir name. left. now apply file_at_dirs. Qed.

Lemma only_removes_erased w w' pk a :
  dirs w' = erased h w pk a -> only_removes w w'.
Proof.
  intros E dir name.
  destruct (decide ((dir, name) = _session_file h pk a)) as [Heq|Hne].
  - right. unfold _session_file in Heq. injection Heq as -> ->.
    exact (stored_erased h w w' pk a E).
  - left. now apply (file_at_erased h w w' pk a).
Qed.

Lemma read_session_only_removes w pk a :
  only_removes w (snd (_read_session h pk a w)).
Proof.
  destruct (read_session_cases h w pk a)
    as (r & w' & -> & _ & _ & _ & Hdirs & _). cbn [snd].
  destruct Hdirs as [E | [E _]].
  - now apply only_removes_dirs.
  - now apply (only_removes_erased w w' pk a).
Qed.

Lemma clear_session_only_removes w pk a :
  only_removes w (snd (_clear_session h pk a w)).
Proof.
  rewrite clear_session_eq.
  destruct (stored h w pk a); [|apply only_removes_refl].
  destruct (fs_fault h Unlink _ _); [apply only_removes_refl|].
  now apply (only_removes_erased w _ pk a).
Qed.

Lemma clear_session_calls w pk a :
  calls (snd (_clear_session h pk a w)) = calls w.
Proof.
  rewrite clear_session_eq.
  destruct (stored h w pk a); [|reflexivity].
  now destruct (fs_fault h Unlink _ _).
Qed.

(** How conflict detection ends when [os.kill] is a probe: with no
    conflict, with the record that the read returned, or with an exception
    that is not an exit.  It calls nothing and creates no file. *)
Lemma check_conflict_cases w pk a :
  kill_is_a_probe h ->
  exists r w1,
    _check_session_conflict h pk a w = (r, w1) /\
    (r = Ok None \/
     (exists s, r = Ok (Some s) /\ (s = [] \/ exists e, expiry h s = Some e))
     \/ (exists e, r = Raise e /\ is_Exit e = false)) /\
    only_removes w w1 /\ calls w1 = calls w.
Proof.
  intros Hkill. unfold _check_session_conflict.
  assert (H1 := read_session_only_removes w pk a).
  destruct (read_session_cases h w pk a)
    as (r & w1 & Er & Hr & _ & Hc & _).
  rewrite Er in H1. cbn [snd] in H1.
  unfold mbind at 1, M_bind at 1, bind at 1. rewrite Er.
  destruct Hr as [-> | [[s ->] | [-> | ->]]].
  - eexists _, _. split; [reflexivity|]. auto.
  - destruct (read_session_some h _ _ _ _ _ Er) as (_ & (e & He & _) & _).
    destruct s as [|item items].
    { eexists _, _. split; [reflexivity|]. auto. }
    assert (Hsome : exists s, Ok (Some (item :: items)) = Ok (Some s) /\
                      (s = [] \/ exists e, expiry h s = Some e)).
    { exists (item :: items). eauto. }
    destruct (eq_int _ _).
    { eexists _, _. split; [reflexivity|]. auto. }
    destruct (truthy _);
      [|eexists _, _; split; [reflexivity|]; auto].
    unfold mbind at 1, M_bind at 1, bind at 1, try_except.
    unfold mbind at 1, M_bind at 1, bind at 1.
    assert (Hk : exists rk, os_kill0 h (default JNull (dict_get "pid"
                                         (item :: items))) w1 = (rk, w1) /\
                   (rk = Ok tt \/ rk = Raise OSError \/ rk = Raise TypeError)).
    { unfold os_kill0, lift, raise.
      destruct (default JNull _) as [|b|n| | |].
      - eexists; split; [reflexivity|]; auto.
      - destruct (Hkill (Z.b2z b)) as [E | E]; rewrite E;
          eexists; (split; [reflexivity|]); auto.
      - destruct (Hkill n) as [E | E]; rewrite E;
          eexists; (split; [reflexivity|]); auto.
      - eexists; split; [reflexivity|]; auto.
      - eexists; split; [reflexivity|]; auto.
      - eexists; split; [reflexivity|]; auto. }
    destruct Hk as (rk & -> & [-> | [-> | ->]]).
    + eexists _, _. split; [reflexivity|]. auto.
    + cbn [is_OSError].
      unfold mbind at 1, M_bind at 1, bind at 1.
      assert (H2 := clear_session_only_removes w1 pk a).
      assert (Hc2 := clear_session_calls w1 pk a).
      assert (Hcl : exists rc, fst (_clear_session h pk a w1) = rc /\
                      (rc = Ok true \/ rc = Ok false \/ rc = Raise OSError)).
      { rewrite clear_session_eq.
        destruct (stored h w1 pk a); [|eauto].
        destruct (fs_fault h Unlink _ _); eauto. }
      destruct (_clear_session h pk a w1) as [rc w2].
      cbn [fst snd] in *. destruct Hcl as (? & <- & Hcl).
      assert (H3 := only_removes_trans _ _ _ H1 H2).
      destruct Hcl as [-> | [-> | ->]];
        (eexists _, _; split; [reflexivity|]);
        (split; [|split; [exact H3 | congruence]]); auto.
      right. right. now exists OSError.
    + cbn [is_OSError]. eexists _, _. split; [reflexivity|].
      split; [|auto]. right. right. now exists TypeError.
  - eexists _, _. split; [reflexivity|].
    split; [|auto]. right. right. now exists TypeError.
  - eexists _, _. split; [reflexivity|].
    split; [|auto]. right. right. now exists AttributeError.
Qed.

Lemma only_removes_stored w w' pk a :
  only_removes w w' ->
  stored h w' pk a = stored h w pk a \/ stored h w' pk a = None.
Proof. intros H1. apply H1. Qed.

(** ** The loop of [purge] *)

Lemma append_inj_json a b :
  String.append a ".json" = String.append b ".json" -> a = b.
Proof.
  revert b. induction a as [|c a IH]; intros b E.
  - destruct b as [|c b]; [reflexivity|].
    apply (f_equal String.length) in E. rewrite !length_append in E.
    cbn in E. lia.
  - destruct b as [|c' b].
    + apply (f_equal String.length) in E. rewrite !length_append in E.
      cbn in E. lia.
    + change (String c (String.append a ".json") =
              String c' (String.append b ".json")) in E.
      injection E as -> E. f_equal. now apply IH.
Qed.

Lemma purge_sessions_eq pk agents :
  (forall a, In a agents ->
     fs_fault h Unlink (_project_hash h pk) (String.append a ".json")
       = false) ->
  List.NoDup agents ->
  forall w n,
    exists w',
      purge_sessions h pk agents n w =
        (Ok (n + Z.of_nat (length (with_session h w pk agents))), w') /\
      (forall a, In a agents -> stored h w' pk a = None) /\
      (forall dir name,
         (forall a, In a agents -> (dir, name) <> _session_file h pk a) ->
         file_at w' dir name = file_at w dir name) /\
      out w' = out w /\ calls w' = calls w /\ reads w' = reads w.
Proof.
  intros Hf Hnd. induction agents as [|a rest IH]; intros w n.
  - exists w. cbn. rewrite Z.add_0_r. repeat split; auto. now intros a [].
  - inversion Hnd as [|? ? Hnotin Hnd']; subst.
    set (b := match stored h w pk a with Some _ => true | None => false end).
    set (w1 := match stored h w pk a with
               | Some _ => with_dirs w (erased h w pk a)
               | None => w
               end).
    assert (Hstep : _clear_session h pk a w = (Ok b, w1)).
    { rewrite clear_session_eq, (Hf a (or_introl eq_refl)).
      unfold b, w1. now destruct (stored h w pk a). }
    assert (Hs1 : stored h w1 pk a = None).
    { unfold w1. destruct (stored h w pk a) eqn:Es; [|exact Es].
      now apply (stored_erased h w). }
    assert (Hother : forall dir name,
              (dir, name) <> _session_file h pk a ->
              file_at w1 dir name = file_at w dir name).
    { intros dir name Hne. unfold w1.
      destruct (stored h w pk a); [|reflexivity].
      now apply (file_at_erased h w _ pk a). }
    assert (Hrest : with_session h w1 pk rest = with_session h w pk rest).
    { unfold with_session. apply filter_ext_in. intros x Hx.
      unfold stored. rewrite Hother; [reflexivity|].
      unfold _session_file. intros [= E].
      apply append_inj_json in E. subst x. contradiction. }
    destruct (IH (fun x Hx => Hf x (or_intror Hx)) Hnd' w1
                (if b then n + 1 else n))
      as (w' & Ep & Hnone & Hkeep & Ho & Hc & Hr).
    exists w'. split; [|split; [|split; [|split; [|split]]]].
    + cbn [purge_sessions]. rewrite (bind_ok _ _ _ _ _ Hstep).
      rewrite Ep, Hrest. f_equal. f_equal.
      unfold with_session at 2. cbn [List.filter].
      fold (with_session h w pk rest). unfold b.
      destruct (stored h w pk a) eqn:Es.
      * rewrite bool_decide_eq_true_2 by eauto. cbn [length]. lia.
      * rewrite bool_decide_eq_false_2 by (intros [x Hx]; discriminate).
        reflexivity.
    + intros x [<- | Hx]; [|now apply Hnone].
      unfold stored. rewrite Hkeep; [exact Hs1|].
      intros y Hy. unfold _session_file. intros [= E].
      apply append_inj_json in E. subst y. contradiction.
    + intros dir name Hne. rewrite Hkeep.
      * apply Hother. apply Hne. now left.
      * intros y Hy. apply Hne. now right.
    + rewrite Ho. unfold w1. now destruct (stored h w pk a).
    + rewrite Hc. unfold w1. now destruct (stored h w pk a).
    + rewrite Hr. unfold w1. now destruct (stored h w pk a).
Qed.

End OnlyRemoves.

Lemma command_bind_exit {A B} (c : M A) (k : A -> M B) w n w1 :
  c w = (Raise (Exit n), w1) ->
  command (c ≫= k) w = (Raise (Exit n), w1).
Proof.
  intros E. unfold command, try_except.
  unfold mbind at 1, M_bind at 1, bind at 1. now rewrite E.
Qed.

(** * Further properties: the session store *)

(** X1.  [_clear_session] (used by [session end], [delete], [purge] and by
    conflict detection).  When the file can be unlinked, clearing reports
    whether there was a session file, leaves none behind, and is
    idempotent: a second clear finds nothing, reports [False] and
    changes nothing, and a read finds no session.  Clearing where there
    is no file changes nothing at all. *)
Theorem clear_session_removes_the_record h w pk a :
  fs_fault h Unlink (_project_hash h pk) (String.append a ".json") = false ->
  exists w',
    _clear_session h pk a w =
      (Ok (bool_decide (is_Some (stored h w pk a))), w') /\
    stored h w' pk a = None /\
    _clear_session h pk a w' = (Ok false, w') /\
    _read_session h pk a w' = (Ok None, w') /\
    (stored h w pk a = None -> w' = w) /\
    out w' = out w /\ calls w' = calls w /\ reads w' = reads w.
Proof.
  intros Hf. rewrite clear_session_eq, Hf.
  destruct (stored h w pk a) as [t|] eqn:Es.
  - exists (with_dirs w (erased h w pk a)).
    assert (Hn : stored h (with_dirs w (erased h w pk a)) pk a = None).
    { now apply (stored_erased h w). }
    split; [|split; [exact Hn|split; [|split; [|split]]]].
    + rewrite bool_decide_eq_true_2; [reflexivity | eauto].
    + now rewrite clear_session_eq, Hn.
    + now rewrite read_session_eq, Hn.
    + discriminate.
    + repeat split.
  - exists w. split; [|split; [exact Es|split; [|split; [|split]]]].
    + rewrite bool_decide_eq_false_2; [reflexivity |].
      intros [x Hx]. discriminate.
    + now rewrite clear_session_eq, Es.
    + now rewrite read_session_eq, Es.
    + reflexivity.
    + repeat split.
Qed.

Lemma clear_session_removes_the_record_witness :
  let w := Demo.world_with [("Nova.json", Demo.nova_live 7000)] in
  exists w',
    _clear_session Demo.host "/tmp/p" "Nova" w = (Ok true, w') /\
    stored Demo.host w' "/tmp/p" "Nova" = None /\
    _clear_session Demo.host "/tmp/p" "Nova" w' = (Ok false, w').
Proof.
  intros w.
  destruct (clear_session_removes_the_record Demo.host w "/tmp/p" "Nova"
              eq_refl) as (w' & Ec & Hn & Ec2 & _).
  exists w'. split; [|split; [exact Hn | exact Ec2]].
  rewrite Ec. f_equal.
Defined.



(** X4.  The pid that [_write_session] records is one that [_pid_in_ancestry]
    finds from the writing process: the grandparent when [ps] reports one
    above 1, otherwise the process itself or its parent.  This holds
    when [ps] is on the path, the process and its parent are not init, and
    [ps] reports for the process the parent that [os.getppid] gives; two
    calls of [ps] are enough. *)
Theorem recorded_pid_is_in_the_ancestry h fuel w pk a ttl d w' :
  which_ps h = true ->
  1 < getpid h -> 1 < getppid h ->
  ps_ppid h (getpid h) = PsParent (getppid h) ->
  (2 <= fuel)%nat ->
  _write_session h pk a ttl w = (Ok d, w') ->
  exists pid,
    dict_get "pid" d = Some (JInt pid) /\
    stored h w' pk a = Some (JsonText (JDict d)) /\
    _pid_in_ancestry h fuel pid = Ok true.
Proof.
  intros Hps Hpid Hppid Hparent Hfuel Ew.
  destruct (write_session_ok h _ _ _ _ _ _ Ew)
    as (existing & w2 & expires & _ & _ & -> & _ & Hs).
  exists (stable_pid h). split; [apply pid_carry|]. split; [exact Hs|].
  assert (Hwalk : forall target,
            1 < target ->
            target = getpid h \/ target = getppid h \/
            ps_ppid h (getppid h) = PsParent target ->
            _pid_in_ancestry h fuel target = Ok true).
  { intros target Ht Hcase. unfold _pid_in_ancestry.
    rewrite Hps. cbn [negb].
    replace (target <=? 1) with false by (symmetry; apply Z.leb_gt; lia).
    destruct fuel as [|[|fuel]]; try lia.
    cbn [ancestry_walk].
    replace (1 <? getpid h) with true by (symmetry; apply Z.ltb_lt; lia).
    cbn [negb].
    destruct (getpid h =? target) eqn:E1; [reflexivity|].
    rewrite Hparent.
    replace (1 <? getppid h) with true by (symmetry; apply Z.ltb_lt; lia).
    cbn [negb].
    destruct (getppid h =? target) eqn:E2; [reflexivity|].
    apply Z.eqb_neq in E1, E2.
    destruct Hcase as [-> | [-> | Hg]]; try contradiction.
    rewrite Hg. destruct fuel; cbn [ancestry_walk];
      replace (1 <? target) with true by (symmetry; apply Z.ltb_lt; lia);
      cbn [negb]; now rewrite Z.eqb_refl. }
  unfold stable_pid.
  destruct (ps_ppid h (getppid h)) as [| | |g] eqn:Eg.
  - apply Hwalk; auto.
  - apply Hwalk; auto.
  - apply Hwalk; auto.
  - destruct (1 <? g) eqn:E1.
    + apply Z.ltb_lt in E1. apply Hwalk; auto.
    + apply Hwalk; auto.
Qed.

Lemma recorded_pid_is_in_the_ancestry_witness :
  exists d w',
    _write_session Demo.host "/tmp/p" "Nova" 300 Demo.empty_world =
      (Ok d, w') /\
    dict_get "pid" d = Some (JInt 4242) /\
    _pid_in_ancestry Demo.host 2 4242 = Ok true.
Proof.
  destruct (_write_session Demo.host "/tmp/p" "Nova" 300 Demo.empty_world)
    as [r w'] eqn:Ew.
  assert (Hr : r = Ok (Demo.record "Nova" "2026-01-01T00:00:00+00:00"
                         "2026-01-01T00:05:00+00:00" 4242)).
  { apply (f_equal fst) in Ew. vm_compute in Ew. now subst r. }
  subst r.
  destruct (recorded_pid_is_in_the_ancestry Demo.host 2 _ _ _ _ _ _
              eq_refl eq_refl eq_refl eq_refl (le_n 2) Ew)
    as (pid & Hp & _ & Ha).
  eexists _, w'. split; [reflexivity|]. split; [reflexivity|].
  cbn in Hp. injection Hp as <-. exact Ha.
Defined.

(** * Further properties: sessions, conflicts and commands *)





(** X8.  A heartbeat on an active session.  It prints one line, keeps
    [started_at], sets the expiry to [ttl] seconds after the clock reading
    of its write (never after the old expiry), and records the stable pid
    of the process that sends the heartbeat, whoever owned the session
    before: the heartbeat does not look at the recorded owner. *)
Theorem heartbeat_renews_and_takes_over h w a pk ttl as_json d0 e0 v expires :
  healthy h pk a ->
  stored h w pk a = Some (JsonText (JDict d0)) -> d0 <> [] ->
  expiry h d0 = Some e0 ->
  utcnow h (reads w) <= e0 -> utcnow h (S (S (reads w))) <= e0 ->
  dict_get "started_at" d0 = Some v ->
  expires_after h (utcnow h (S (reads w))) ttl expires ->
  exists d w',
    session_heartbeat h a pk ttl as_json w = (Ok tt, w') /\
    stored h w' pk a = Some (JsonText (JDict d)) /\
    dict_get "started_at" d = Some v /\
    expiry h d = Some expires /\
    expires = utcnow h (S (reads w)) + ttl * 1000000 /\
    owner d = JInt (stable_pid h) /\
    out w' =
      (out w ++ [if as_json then OutJson (JDict d)
                 else OutText (MsgSessionExtended a ttl)])%list.
Proof.
  intros Hh Es Hd0 He0 Hle1 Hle2 Hv Hexp.
  assert (Er : _read_session h pk a w = (Ok (Some d0), tick w)).
  { apply read_session_live with (e := e0); auto. apply Hh. }
  destruct d0 as [|item items]; [contradiction|].
  rewrite (heartbeat_with_session h _ _ _ _ _ _ _ _ Er).
  destruct (write_session_returns h (tick w) pk a ttl expires Hh)
    as (d & w2 & Ew & Hs & Ho & Hx & Hout & _ & _ & Hkeep); auto.
  { rewrite stored_tick, Es. unfold tolerated. unfold expiry in He0.
    destruct (default (JStr "") (dict_get "expires_at" (item :: items)));
      try discriminate.
    destruct (fromisoformat h (replace_Z s)) as [[u|u]|]; discriminate. }
  rewrite Ew. exists d. eexists. split; [reflexivity|].
  split; [exact Hs|]. split; [|split; [exact Hx|split; [|split]]].
  - apply (Hkeep (item :: items) e0 v); auto.
  - destruct Hexp as (_ & Hadd & _). unfold datetime_add in Hadd.
    cbn [reads tick] in Hadd.
    destruct (_ && _); [now injection Hadd as <-|discriminate].
  - exact Ho.
  - cbn. now rewrite Hout.
Qed.

Lemma heartbeat_renews_and_takes_over_witness :
  let w := Scene.world_at 1 [("Nova.json", Demo.nova_live 7000)] in
  exists d w',
    session_heartbeat Demo.host "Nova" "/tmp/p" 300 true w = (Ok tt, w') /\
    stored Demo.host w' "/tmp/p" "Nova" = Some (JsonText (JDict d)) /\
    dict_get "started_at" d = Some (JStr "2020-01-01T00:00:00+00:00") /\
    expiry Demo.host d = Some 1767225902000000 /\
    owner d = JInt 4242.
Proof.
  intros w.
  destruct (heartbeat_renews_and_takes_over Demo.host w "Nova" "/tmp/p" 300
              true
              (Demo.record "Nova" "2020-01-01T00:00:00+00:00"
                 "2099-01-01T00:00:00+00:00" 7000)
              4070908800000000 (JStr "2020-01-01T00:00:00+00:00")
              1767225902000000)
    as (d & w' & E & Hs & Hv & He & _ & Ho & _).
  - apply demo_healthy.
  - reflexivity.
  - discriminate.
  - reflexivity.
  - vm_compute. discriminate.
  - vm_compute. discriminate.
  - reflexivity.
  - repeat split.
  - exists d, w'. repeat split; assumption.
Defined.





(** X6.  A session record that names no owner (no [pid], or a [pid] that is
    null, false or 0) is a conflict for every process as long as it has
    not expired: conflict detection returns it and does not clear it.
    A record whose [pid] is a non-empty str makes conflict detection
    raise TypeError, which [os.kill] raises and only OSError is caught. *)
Theorem record_without_owner_is_a_conflict h w pk a s w1 :
  _read_session h pk a w = (Ok (Some s), w1) ->
  s <> [] ->
  getpid h <> 0 ->
  (truthy (owner s) = false ->
   _check_session_conflict h pk a w = (Ok (Some s), w1)) /\
  (forall p, owner s = JStr p -> p <> "" ->
   _check_session_conflict h pk a w = (Raise TypeError, w1)).
Proof.
  intros Er Hs Hpid. unfold _check_session_conflict.
  rewrite (bind_ok _ _ _ _ _ Er).
  destruct s as [|item items]; [contradiction|].
  fold (owner (item :: items)). split.
  - intros Hf.
    assert (Hne : eq_int (owner (item :: items)) (getpid h) = false).
    { destruct (owner (item :: items)) as [|b|n| | |]; try reflexivity.
      - cbn [truthy] in Hf. subst b. unfold eq_int.
        change (Z.b2z false) with 0. apply Z.eqb_neq. lia.
      - cbn [truthy] in Hf. apply negb_false_iff, Z.eqb_eq in Hf. subst n.
        unfold eq_int. apply Z.eqb_neq. lia. }
    now rewrite Hne, Hf.
  - intros p Hp Hne. rewrite Hp. cbn [eq_int truthy].
    destruct (String.eqb_spec p ""); [contradiction|]. reflexivity.
Qed.

Lemma record_without_owner_is_a_conflict_witness :
  let s := [("agent", JStr "Nova");
            ("expires_at", JStr "2099-01-01T00:00:00+00:00")] in
  let w := Demo.world_with [("Nova.json", JsonText (JDict s))] in
  _check_session_conflict Demo.host "/tmp/p" "Nova" w = (Ok (Some s), tick w).
Proof.
  intros s w.
  destruct (record_without_owner_is_a_conflict Demo.host w "/tmp/p" "Nova" s
              (tick w)) as [Hnone _].
  - reflexivity.
  - discriminate.
  - vm_compute. discriminate.
  - apply Hnone. reflexivity.
Defined.

(** X9.  The listing of [session status] is complete: the record of every
    session file [<agent>.json] that can be read and stays unexpired
    while the listing runs is in the list returned, provided every file
    of the directory is one that [_read_session] copes with. *)
Theorem listing_shows_every_active_session h w pk a d e :
  a <> "" -> d <> [] ->
  stored h w pk a = Some (JsonText (JDict d)) ->
  fs_fault h ReadText (_project_hash h pk) (String.append a ".json") = false ->
  expiry h d = Some e ->
  (forall k,
     (reads w <= k < reads w + length (json_names w (_project_hash h pk)))%nat
     -> utcnow h k <= e) ->
  (forall f, In f (json_names w (_project_hash h pk)) ->
             tolerated h (stored h w pk (stem f))) ->
  exists l w', session_status_sessions h pk w = (Ok l, w') /\ In d l.
Proof.
  intros Ha Hd Hs Hf He Hclock Htol.
  unfold session_status_sessions.
  rewrite (bind_ok _ _ _ _ _ (dir_exists_eq w (_project_hash h pk))).
  assert (Hdir : is_Some (dirs w !! _project_hash h pk)).
  { unfold stored, file_at in Hs.
    destruct (dirs w !! _project_hash h pk); [eauto | discriminate]. }
  destruct Hdir as [dd ->].
  unfold glob_json, get_world.
  unfold mbind at 1, M_bind at 1, bind at 1.
  unfold mbind at 1, M_bind at 1, bind at 1. cbn beta iota.
  unfold mret, M_ret, ret.
  apply (read_sessions_complete h pk a d e); auto.
  - now apply List.Forall_forall.
  - apply json_names_in. split; [apply is_json_name_session_file|].
    unfold stored in Hs. rewrite Hs. eauto.
Qed.

Lemma listing_shows_every_active_session_witness :
  let w := Demo.world_with [("Nova.json", Demo.nova_live 7000);
                            ("Orion.json", Demo.nova_expired 7000);
                            ("junk.json", NotJson "{")] in
  exists l w',
    session_status_sessions Demo.host "/tmp/p" w = (Ok l, w') /\
    In (Demo.record "Nova" "2020-01-01T00:00:00+00:00"
          "2099-01-01T00:00:00+00:00" 7000) l.
Proof.
  intros w.
  apply (listing_shows_every_active_session Demo.host w "/tmp/p" "Nova" _
           4070908800000000).
  - discriminate.
  - discriminate.
  - reflexivity.
  - reflexivity.
  - reflexivity.
  - intros k Hk. vm_compute in Hk.
    unfold utcnow, Demo.host, Demo.T0. lia.
  - intros f Hf. vm_compute in Hf.
    destruct Hf as [<- | [<- | [<- | []]]]; vm_compute; try exact I;
      intros n; discriminate.
Defined.



(** X11.  The outcomes of [_format_session_expiry].  Only ValueError and
    TypeError are caught: a record whose [expires_at] is not a str makes
    it raise AttributeError.  When [expires_at] is a str or is missing it
    returns, and the text is ["?"] exactly when the timestamp does not
    parse to a datetime with a UTC offset. *)
Theorem format_session_expiry_outcomes h s w :
  (is_str (default (JStr "") (dict_get "expires_at" s)) = false ->
   _format_session_expiry h s w = (Raise AttributeError, w)) /\
  (is_str (default (JStr "") (dict_get "expires_at" s)) = true ->
   exists text w',
     _format_session_expiry h s w = (Ok text, w') /\
     (text = "?" <-> expiry h s = None)).
Proof.
  unfold _format_session_expiry, expiry, parse_iso. split; intros Hs.
  - destruct (default (JStr "") (dict_get "expires_at" s)); try discriminate;
      reflexivity.
  - destruct (default (JStr "") (dict_get "expires_at" s)); try discriminate.
    destruct (fromisoformat h (replace_Z s0)) as [[e|e]|].
    + eexists _, _. split; [reflexivity|]. split; [|discriminate].
      intros E. now apply format_remaining_known in E.
    + eexists _, _. split; [reflexivity|]. now split.
    + eexists _, _. split; [reflexivity|]. now split.
Qed.

Lemma format_session_expiry_outcomes_witness :
  _format_session_expiry Demo.host [("expires_at", JInt 5)] Demo.empty_world
    = (Raise AttributeError, Demo.empty_world) /\
  exists text w',
    _format_session_expiry Demo.host [("agent", JStr "Nova")]
      Demo.empty_world = (Ok text, w') /\
    (text = "?" <-> expiry Demo.host [("agent", JStr "Nova")] = None).
Proof.
  split.
  - apply (proj1 (format_session_expiry_outcomes Demo.host
                    [("expires_at", JInt 5)] Demo.empty_world)).
    reflexivity.
  - apply (proj2 (format_session_expiry_outcomes Demo.host
                    [("agent", JStr "Nova")] Demo.empty_world)).
    reflexivity.
Defined.



(** X3.  A write over a session that is no longer active starts a new session.
    When the session file is missing, is not JSON, or holds a record that
    has expired by the time the write reads it, the record written has
    the write time as its [started_at]: nothing of the old record is
    kept. *)
Theorem write_over_an_ended_session_starts_anew h w pk a ttl expires :
  healthy h pk a ->
  stored h w pk a = None \/
  (exists raw, stored h w pk a = Some (NotJson raw)) \/
  (exists d0 e0, stored h w pk a = Some (JsonText (JDict d0)) /\
                 expiry h d0 = Some e0 /\ e0 < utcnow h (S (reads w))) ->
  expires_after h (utcnow h (reads w)) ttl expires ->
  exists w',
    _write_session h pk a ttl w =
      (Ok (new_session h pk a (utcnow h (reads w)) expires (stable_pid h)),
       w') /\
    stored h w' pk a =
      Some (JsonText (JDict (new_session h pk a (utcnow h (reads w)) expires
                               (stable_pid h)))) /\
    dict_get "started_at"
      (new_session h pk a (utcnow h (reads w)) expires (stable_pid h)) =
    Some (JStr (isoformat h (utcnow h (reads w)))).
Proof.
  intros [Hm Hf] Hold (Hdelta & Hadd & _).
  assert (Hr1 : reads (tick (ensure_dir h w pk)) = S (reads w)).
  { unfold ensure_dir. now destruct (dirs w !! _project_hash h pk). }
  assert (Er : exists w2,
            _read_session h pk a (tick (ensure_dir h w pk)) = (Ok None, w2)).
  { destruct Hold as [Hs | [[raw Hs] | (d0 & e0 & Hs & He & Hlt)]].
    - rewrite read_session_eq, stored_ensure_dir, Hs. eauto.
    - rewrite read_session_eq, stored_ensure_dir, Hs.
      destruct (fs_fault h ReadText _ _); eauto.
    - rewrite (read_session_expired h _ pk a d0 e0); eauto.
      + now rewrite stored_ensure_dir.
      + now rewrite Hr1. }
  destruct Er as [w2 Er].
  eexists. split; [|split; [|reflexivity]].
  - rewrite write_session_eq by assumption. cbv zeta.
    rewrite Hdelta, Hadd, Er, (Hf WriteText). reflexivity.
  - now apply (stored_saved h w2).
Qed.

Lemma write_over_an_ended_session_starts_anew_witness :
  let w := Demo.world_with [("Nova.json", Demo.nova_expired 7000)] in
  exists w',
    _write_session Demo.host "/tmp/p" "Nova" 300 w =
      (Ok (Demo.record "Nova" "2026-01-01T00:00:00+00:00"
             "2026-01-01T00:05:00+00:00" 4242), w').
Proof.
  intros w.
  destruct (write_over_an_ended_session_starts_anew Demo.host w "/tmp/p"
              "Nova" 300 1767225900000000) as (w' & Ew & _).
  - apply demo_healthy.
  - right. right. eexists _, 1767225599000000.
    split; [reflexivity|]. split; [reflexivity|].
    vm_compute. reflexivity.
  - repeat split.
  - exists w'. exact Ew.
Defined.

(** X14.  No session without a registration.  When [register_agent] fails,
    [register] (without [--resume]) exits with status 1 and has written
    no session file: every file is as it was, or has been removed by
    the conflict check as expired or stale.  This takes [os.kill] to
    return or to raise OSError. *)
Theorem failed_registration_writes_no_session h w c program model name
    as_agent force ttl task pk as_json j e :
  kill_is_a_probe h ->
  ensure_project c pk = Ok j ->
  register_agent c pk program model (py_or as_agent name) task = Raise e ->
  is_Exit e = false ->
  exists w',
    register h c program model name as_agent false force ttl task pk as_json
      w = (Raise (Exit 1), w') /\
    only_removes w w'.
Proof.
  intros Hkill Hep Hreg He.
  set (w1 := calling w (CallEnsureProject pk)).
  assert (Htail : forall w0,
            only_removes w w0 ->
            exists w',
              command
                (log_call (CallRegisterAgent pk program model
                             (py_or as_agent name) task);;
                 result ← lift (register_agent c pk program model
                                  (py_or as_agent name) task);
                 _ ← _write_session h pk (result_name result) ttl;
                 if as_json then
                   emit (OutJson (JDict (dict_set "session_ttl" (JInt ttl)
                                           result)))
                 else
                   emit (OutText (MsgRegistered (result_name result)
                                    (match py_or as_agent name with
                                     | None => true
                                     | Some _ => false
                                     end) ttl))) w0 =
              (Raise (Exit 1), w') /\ only_removes w w').
  { intros w0 H0.
    rewrite (command_bind_ok _ _ w0 tt
               (calling w0 (CallRegisterAgent pk program model
                              (py_or as_agent name) task)))
      by reflexivity.
    rewrite (command_bind_raise _ _ _ e
               (calling w0 (CallRegisterAgent pk program model
                              (py_or as_agent name) task)));
      [|unfold lift; now rewrite Hreg | exact He].
    eexists. split; [reflexivity|].
    apply (only_removes_trans _ _ _ H0). now apply only_removes_dirs. }
  unfold register.
  rewrite (command_bind_ok _ _ w tt w1) by reflexivity.
  rewrite (command_bind_ok _ _ w1 j w1) by (unfold lift; now rewrite Hep).
  cbv zeta. cbn [andb].
  rewrite (command_bind_ok _ _ w1 (py_or as_agent name) w1) by reflexivity.
  assert (H1 : only_removes w w1) by now apply only_removes_dirs.
  destruct (nonempty (py_or as_agent name) && negb force).
  - destruct (check_conflict_cases h w1 pk (default "" (py_or as_agent name))
                Hkill) as (r & w2 & Ec & Hr & H2 & _).
    assert (H12 := only_removes_trans _ _ _ H1 H2).
    destruct Hr as [-> | [(s & -> & Hs) | (e' & -> & He')]].
    + rewrite (command_bind_ok _ _ w1 tt w2);
        [now apply Htail | now rewrite (bind_ok _ _ _ _ _ Ec)].
    + destruct Hs as [-> | [e' Hs]].
      * rewrite (command_bind_ok _ _ w1 tt w2);
          [now apply Htail | now rewrite (bind_ok _ _ _ _ _ Ec)].
      * destruct s as [|item items].
        { rewrite (command_bind_ok _ _ w1 tt w2);
            [now apply Htail | now rewrite (bind_ok _ _ _ _ _ Ec)]. }
        destruct as_json; (eexists; split;
          [apply command_bind_exit; rewrite (bind_ok _ _ _ _ _ Ec);
           rewrite (bind_ok _ _ _ _ _
                      (format_session_expiry_ok h w2 _ e' Hs));
           reflexivity
          |apply (only_removes_trans _ _ _ H12);
           now apply only_removes_dirs]).
    + eexists. split.
      * apply (command_bind_raise _ _ w1 e' w2);
          [now rewrite (bind_raise _ _ _ _ _ Ec) | exact He'].
      * apply (only_removes_trans _ _ _ H12). now apply only_removes_dirs.
  - rewrite (command_bind_ok _ _ w1 tt w1) by reflexivity.
    now apply Htail.
Qed.

Lemma failed_registration_writes_no_session_witness :
  let w := Demo.world_with [("Nova.json", Demo.nova_expired 7000)] in
  exists w',
    register Demo.host Roster.refusing "claude-code" "model" None
      (Some "Nova") false false 300 "" "/tmp/p" true w
      = (Raise (Exit 1), w') /\
    only_removes w w'.
Proof.
  intros w.
  apply (failed_registration_writes_no_session Demo.host w Roster.refusing
           "claude-code" "model" None (Some "Nova") false 300 "" "/tmp/p"
           true JNull (AgentMailError "name is taken")).
  - intros pid. unfold kill0, Demo.host, Demo.alive.
    destruct (_ || _); auto.
  - reflexivity.
  - reflexivity.
  - reflexivity.
Defined.

(** X16.  The loop of [purge] over the names of the purged agents (distinct
    names, session files that can be unlinked): the number it reports is
    the number of those agents that had a session file; afterwards none of
    them has one, and the session file of every other agent is as it
    was. *)
Theorem purge_clears_the_sessions_of_the_purged h pk agents w :
  (forall a, In a agents ->
     fs_fault h Unlink (_project_hash h pk) (String.append a ".json")
       = false) ->
  List.NoDup agents ->
  exists w',
    purge_sessions h pk agents 0 w =
      (Ok (Z.of_nat (length (with_session h w pk agents))), w') /\
    (forall a, In a agents -> stored h w' pk a = None) /\
    (forall b, ~ In b agents -> stored h w' pk b = stored h w pk b).
Proof.
  intros Hf Hnd.
  destruct (purge_sessions_eq h pk agents Hf Hnd w 0)
    as (w' & Ep & Hnone & Hkeep & _).
  exists w'. split; [exact Ep|]. split; [exact Hnone|].
  intros b Hb. unfold stored. apply Hkeep.
  intros a Ha. unfold _session_file. intros [= E].
  apply append_inj_json in E. subst b. contradiction.
Qed.

Lemma purge_clears_the_sessions_of_the_purged_witness :
  let w := Demo.world_with [("Nova.json", Demo.nova_live 7000);
                            ("Orion.json", Demo.nova_live 4242)] in
  exists w',
    purge_sessions Demo.host "/tmp/p" ["Deleted-1"; "Nova"] 0 w
      = (Ok 1, w') /\
    stored Demo.host w' "/tmp/p" "Nova" = None /\
    stored Demo.host w' "/tmp/p" "Orion" = Some (Demo.nova_live 4242).
Proof.
  intros w.
  destruct (purge_clears_the_sessions_of_the_purged Demo.host "/tmp/p"
              ["Deleted-1"; "Nova"] w) as (w' & Ep & Hnone & Hkeep).
  - intros a _. reflexivity.
  - repeat constructor; cbn; intuition discriminate.
  - exists w'. split; [exact Ep|]. split.
    + apply Hnone. right. now left.
    + rewrite Hkeep; [reflexivity|]. cbn. intuition discriminate.
Defined.

(** X26.  A time-to-live whose expiry Python cannot represent.  When [ttl]
    is more than 999999999 days either way, or [now + ttl] falls outside
    the years 1 to 9999, [_write_session] raises OverflowError after it
    has made the directory and read the clock, and leaves the session
    file as it was; the heartbeat of an active session then prints the
    error and exits with status 1, and the record keeps its old
    expiry. *)
Theorem unrepresentable_expiry_is_an_error h w pk a ttl :
  fs_fault h Mkdir (_project_hash h pk) "" = false ->
  TIMEDELTA_MAX_DAYS < Z.abs (ttl / 86400) \/
  utcnow h (reads w) + ttl * 1000000 < DATETIME_MIN \/
  DATETIME_MAX < utcnow h (reads w) + ttl * 1000000 ->
  _write_session h pk a ttl w =
    (Raise OverflowError, tick (ensure_dir h w pk)) /\
  stored h (tick (ensure_dir h w pk)) pk a = stored h w pk a /\
  forall w0 item items as_json,
    _read_session h pk a w0 = (Ok (Some (item :: items)), w) ->
    session_heartbeat h a pk ttl as_json w0 =
      (Raise (Exit 1),
       printing (tick (ensure_dir h w pk)) (ErrText (MsgError OverflowError))).
Proof.
  intros Hm Httl.
  assert (Ew : _write_session h pk a ttl w =
               (Raise OverflowError, tick (ensure_dir h w pk))).
  { rewrite write_session_eq by assumption. cbv zeta.
    unfold timedelta_seconds, datetime_add.
    destruct (Z.abs (ttl / 86400) <=? TIMEDELTA_MAX_DAYS) eqn:E1;
      [|reflexivity].
    apply Z.leb_le in E1.
    destruct ((DATETIME_MIN <=? utcnow h (reads w) + ttl * 1000000) &&
              (utcnow h (reads w) + ttl * 1000000 <=? DATETIME_MAX)) eqn:E2;
      [|reflexivity].
    apply andb_true_iff in E2. destruct E2 as [E2 E3].
    apply Z.leb_le in E2, E3. lia. }
  split; [exact Ew|]. split; [apply stored_ensure_dir|].
  intros w0 item items as_json Er.
  rewrite (heartbeat_with_session h _ _ _ _ _ _ _ _ Er), Ew. reflexivity.
Qed.

Lemma unrepresentable_expiry_is_an_error_witness :
  let w := Demo.world_with [("Nova.json", Demo.nova_live 7000)] in
  _write_session Demo.host "/tmp/p" "Nova" 1000000000000000 w =
    (Raise OverflowError, tick w) /\
  stored Demo.host (tick w) "/tmp/p" "Nova" = Some (Demo.nova_live 7000).
Proof.
  intros w.
  destruct (unrepresentable_expiry_is_an_error Demo.host w "/tmp/p" "Nova"
              1000000000000000 eq_refl) as (Ew & Hs & _).
  - left. reflexivity.
  - split; [exact Ew | exact Hs].
Defined.

(** * Further properties: the process tree and the heartbeat hook *)

(** X18.  The two ancestry tests, of the command line ([_pid_in_ancestry]) and
    of the heartbeat hook ([_is_ancestor] from the current process), give
    the same answer for every pid above 1 when [ps] is on the path, with
    any fuel.  Without [ps] they differ: the command line answers [False]
    for every pid, its own included, while the hook still finds the pid of
    the process itself, and no other. *)
Theorem ancestry_tests_of_cli_and_hook h fuel pid :
  1 < pid ->
  (which_ps h = true ->
   _is_ancestor h fuel pid (getpid h) = _pid_in_ancestry h fuel pid) /\
  (which_ps h = false ->
   _pid_in_ancestry h fuel pid = Ok false /\
   _is_ancestor h (S fuel) pid (getpid h) = Ok (pid =? getpid h)).
Proof.
  intros Hpid. split; intros Hps.
  - unfold _pid_in_ancestry. rewrite Hps. cbn [negb].
    replace (pid <=? 1) with false by (symmetry; apply Z.leb_gt; lia).
    now apply is_ancestor_walk.
  - split.
    + unfold _pid_in_ancestry. rewrite Hps.
      now destruct (pid <=? 1).
    + cbn [_is_ancestor]. unfold _get_ppid. rewrite Hps. cbn [negb].
      rewrite (Z.eqb_sym pid).
      destruct (getpid h =? pid) eqn:E.
      * apply Z.eqb_eq in E. rewrite E.
        replace (1 <? pid) with true by (symmetry; apply Z.ltb_lt; lia).
        reflexivity.
      * now destruct (1 <? getpid h).
Qed.

Lemma ancestry_tests_of_cli_and_hook_witness :
  _is_ancestor Demo.host 3 4242 5000 = _pid_in_ancestry Demo.host 3 4242 /\
  _pid_in_ancestry Hosts.without_ps 3 5000 = Ok false /\
  _is_ancestor Hosts.without_ps 4 5000 5000 = Ok true.
Proof.
  split.
  - apply (proj1 (ancestry_tests_of_cli_and_hook Demo.host 3 4242 eq_refl)).
    reflexivity.
  - apply (proj2 (ancestry_tests_of_cli_and_hook Hosts.without_ps 3 5000
                    eq_refl)).
    reflexivity.
Defined.



(** X17.  [_pid_in_ancestry] has no guard against a cycle: when [ps] reports
    parents that go round in a set of pids above 1 that does not hold the
    target, the loop never ends, whatever fuel it is given.  (For a target
    of 1 or less, or without [ps], it answers [False] before walking.) *)
Theorem parent_cycle_is_walked_forever h (cycle : Z -> Prop) target :
  which_ps h = true -> 1 < target ->
  cycle (getpid h) ->
  (forall p, cycle p ->
     1 < p /\ p <> target /\ exists q, ps_ppid h p = PsParent q /\ cycle q) ->
  forall fuel, _pid_in_ancestry h fuel target = Hang.
Proof.
  intros Hps Ht Hin Hcycle fuel. unfold _pid_in_ancestry.
  rewrite Hps. cbn [negb].
  replace (target <=? 1) with false by (symmetry; apply Z.leb_gt; lia).
  now apply (ancestry_walk_cycle h cycle).
Qed.

Lemma parent_cycle_is_walked_forever_witness :
  _pid_in_ancestry Hosts.looping 1000 4242 = Hang.
Proof.
  refine (parent_cycle_is_walked_forever Hosts.looping
            (fun p => p = 5000 \/ p = 4999) 4242 _ _ _ _ 1000%nat).
  - reflexivity.
  - reflexivity.
  - now left.
  - intros p [-> | ->].
    + split; [lia|]. split; [lia|]. exists 4999. split; [reflexivity|].
      now right.
    + split; [lia|]. split; [lia|]. exists 5000. split; [reflexivity|].
      now left.
Defined.

(** * Further properties: the client *)

Section ClientProperties.
Import AgentMailClient.
Context (repr : json -> string) (strip : string -> string)
        (loads : string -> option json).

Lemma tool_result_returned tool_name result v :
  tool_result repr strip loads tool_name result = Returned v ->
  exists response,
    result = JDict response /\
    dict_get "error" response = None /\
    forall m, dict_get "result" response = Some (JDict m) ->
              truthy (default JNull (dict_get "isError" m)) = false.
Proof.
  unfold tool_result. destruct result as [| | | s | items | response];
    cbn [py_in mbind outcome_bind]; try discriminate.
  - destruct (index 0 "error" s); cbn; discriminate.
  - destruct (existsb _ items); cbn; discriminate.
  - destruct (dict_get "error" response) as [error|] eqn:Ee.
    + cbn [py_item]. rewrite Ee. cbn [mbind outcome_bind].
      destruct error; cbn; discriminate.
    + intros E. exists response. split; [reflexivity|].
      split; [exact Ee|]. intros m Hm.
      cbn [py_get mbind outcome_bind] in E. rewrite Hm in E.
      cbn [default from_option id] in E.
      destruct (truthy (default JNull (dict_get "isError" m)));
        [discriminate | reflexivity].
Qed.

Lemma tool_result_error tool_name response error :
  dict_get "error" response = Some (JDict error) ->
  tool_result repr strip loads tool_name (JDict response) =
  Raised (MailError (default (JStr "Unknown error") (dict_get "message" error))
            (default JNull (dict_get "code" error))
            (default JNull (dict_get "data" error))).
Proof.
  intros He. unfold tool_result. cbn [py_in mbind outcome_bind].
  rewrite He. cbn [py_item]. rewrite He. reflexivity.
Qed.

Lemma error_message_nonempty tool_name m :
  error_message repr strip tool_name m <> "".
Proof.
  unfold error_message. cbv zeta.
  match goal with
  | |- (if String.eqb ?x "" then _ else _) <> _ =>
      destruct (String.eqb_spec x "") as [_|Hne]; [discriminate | exact Hne]
  end.
Qed.

Lemma tool_result_is_error tool_name response m :
  dict_get "error" response = None ->
  dict_get "result" response = Some (JDict m) ->
  truthy (default JNull (dict_get "isError" m)) = true ->
  tool_result repr strip loads tool_name (JDict response) =
  Raised (MailError (JStr (error_message repr strip tool_name m)) JNull
            (JDict m)).
Proof.
  intros He Hr Hi. unfold tool_result. cbn [py_in mbind outcome_bind].
  rewrite He. cbn [py_get mbind outcome_bind]. rewrite Hr.
  cbn [default from_option id]. now rewrite Hi.
Qed.

Lemma tool_result_ok tool_name response m :
  dict_get "error" response = None ->
  dict_get "result" response = Some (JDict m) ->
  truthy (default JNull (dict_get "isError" m)) = false ->
  tool_result repr strip loads tool_name (JDict response) =
  match dict_get "structuredContent" m with
  | Some structured =>
      match structured with
      | JDict s =>
          match dict_get "result" s with
          | Some v => Returned v
          | None => Returned structured
          end
      | _ => Returned structured
      end
  | None =>
      let content := default JNull (dict_get "content" m) in
      if truthy content then
        text ← content_text content;
        if negb (truthy text) then Returned (JDict [])
        else
          match text with
          | JStr t =>
              match loads t with
              | Some v => Returned v
              | None => Returned text
              end
          | _ => Raised (Python TypeError)
          end
      else Returned (JDict m)
  end.
Proof.
  intros He Hr Hi. unfold tool_result. cbn [py_in mbind outcome_bind].
  rewrite He. cbn [py_get mbind outcome_bind]. rewrite Hr.
  cbn [default from_option id]. now rewrite Hi.
Qed.

End ClientProperties.

(** X20.  [call_tool] never returns what the server flagged as an error: when
    it returns a value, the response was a JSON object without an
    [error] member, and its [result], if an object, had no truthy
    [isError].  Every other response ends in an exception. *)
Theorem flagged_responses_are_never_returned repr strip loads post request_id
    tool_name arguments v :
  fst (AgentMailClient.call_tool repr strip loads post request_id tool_name
         arguments) = AgentMailClient.Returned v ->
  exists response,
    post (AgentMailClient.request (request_id + 1) tool_name arguments) =
      inr (JDict response) /\
    dict_get "error" response = None /\
    forall m, dict_get "result" response = Some (JDict m) ->
              truthy (default JNull (dict_get "isError" m)) = false.
Proof.
  unfold AgentMailClient.call_tool. cbn [fst].
  destruct (post _) as [e|result]; [discriminate|].
  intros E.
  destruct (tool_result_returned repr strip loads _ _ _ E)
    as (response & -> & He & Hi).
  now exists response.
Qed.

Lemma flagged_responses_are_never_returned_witness :
  exists response,
    Wire.answering (Wire.envelope (JDict [("structuredContent", JInt 7)]))
      (AgentMailClient.request 1 "fetch_inbox" None) = inr (JDict response) /\
    dict_get "error" response = None.
Proof.
  destruct (flagged_responses_are_never_returned Wire.repr Wire.strip
              Wire.loads
              (Wire.answering
                 (Wire.envelope (JDict [("structuredContent", JInt 7)])))
              0 "fetch_inbox" None (JInt 7) eq_refl)
    as (response & Hp & He & _).
  exists response. split; [exact Hp | exact He].
Defined.

(** X21.  A response with an [error] member that is an object makes
    [call_tool] raise AgentMailError with the message, code and data of
    that member (the message ["Unknown error"] when it has none),
    whatever else the response holds; the request id is used up. *)
Theorem server_error_is_raised repr strip loads post request_id tool_name
    arguments response error :
  post (AgentMailClient.request (request_id + 1) tool_name arguments) =
    inr (JDict response) ->
  dict_get "error" response = Some (JDict error) ->
  AgentMailClient.call_tool repr strip loads post request_id tool_name
    arguments =
  (AgentMailClient.Raised
     (AgentMailClient.MailError
        (default (JStr "Unknown error") (dict_get "message" error))
        (default JNull (dict_get "code" error))
        (default JNull (dict_get "data" error))),
   request_id + 1).
Proof.
  intros Hp He. unfold AgentMailClient.call_tool. rewrite Hp.
  now rewrite (tool_result_error repr strip loads _ _ _ He).
Qed.

Lemma server_error_is_raised_witness :
  let error := [("code", JInt 123); ("message", JStr "bad");
                ("data", JDict [("x", JInt 1)])] in
  let response := [("jsonrpc", JStr "2.0"); ("id", JInt 1);
                   ("result", JDict [("structuredContent", JInt 7)]);
                   ("error", JDict error)] in
  Wire.call (JDict response) =
  (AgentMailClient.Raised
     (AgentMailClient.MailError (JStr "bad") (JInt 123)
        (JDict [("x", JInt 1)])), 1).
Proof.
  intros error response.
  exact (server_error_is_raised Wire.repr Wire.strip Wire.loads
           (Wire.answering (JDict response)) 0 "fetch_inbox" None
           response error eq_refl eq_refl).
Defined.

(** X22.  A result with a truthy [isError] makes [call_tool] raise
    AgentMailError with the result as data and no code.  The message is
    never empty: when neither the structured content nor the first
    content item gives one, it is [Tool '<name>' failed]. *)
Theorem tool_error_is_raised repr strip loads post request_id tool_name
    arguments response m :
  post (AgentMailClient.request (request_id + 1) tool_name arguments) =
    inr (JDict response) ->
  dict_get "error" response = None ->
  dict_get "result" response = Some (JDict m) ->
  truthy (default JNull (dict_get "isError" m)) = true ->
  exists message,
    AgentMailClient.call_tool repr strip loads post request_id tool_name
      arguments =
    (AgentMailClient.Raised
       (AgentMailClient.MailError (JStr message) JNull (JDict m)),
     request_id + 1) /\
    message <> "" /\
    (dict_get "structuredContent" m = None ->
     truthy (default JNull (dict_get "content" m)) = false ->
     message = String.append "Tool '" (String.append tool_name "' failed")).
Proof.
  intros Hp He Hr Hi.
  exists (AgentMailClient.error_message repr strip tool_name m).
  split; [|split].
  - unfold AgentMailClient.call_tool. rewrite Hp.
    now rewrite (tool_result_is_error repr strip loads _ _ _ He Hr Hi).
  - apply error_message_nonempty.
  - intros Hs Hc. unfold AgentMailClient.error_message.
    rewrite Hs, Hc. reflexivity.
Qed.

Lemma tool_error_is_raised_witness :
  let m := [("isError", JBool true);
            ("content", JList [JDict [("type", JStr "text");
                                      ("text", JStr "boom")]])] in
  Wire.call (Wire.envelope (JDict m)) =
  (AgentMailClient.Raised
     (AgentMailClient.MailError (JStr "boom") JNull (JDict m)), 1).
Proof.
  intros m.
  destruct (tool_error_is_raised Wire.repr Wire.strip Wire.loads
              (Wire.answering (Wire.envelope (JDict m))) 0 "fetch_inbox"
              None (Wire.members (JDict m)) m eq_refl eq_refl eq_refl
              eq_refl)
    as (message & E & _).
  unfold Wire.call. rewrite E.
  apply (f_equal fst) in E. vm_compute in E.
  injection E as <-. reflexivity.
Defined.

(** X23.  Structured content comes first.  For a result without [isError]
    that has a [structuredContent] member, [call_tool] returns the value
    under [result] of that member when it is an object with such a key,
    and the member itself otherwise; the text content is not looked at.
    So a value that the server wraps as [{"result": v}] comes back as
    [v], whatever [v] is. *)
Theorem structured_content_is_unwrapped repr strip loads post request_id
    tool_name arguments response m structured :
  post (AgentMailClient.request (request_id + 1) tool_name arguments) =
    inr (JDict response) ->
  dict_get "error" response = None ->
  dict_get "result" response = Some (JDict m) ->
  truthy (default JNull (dict_get "isError" m)) = false ->
  dict_get "structuredContent" m = Some structured ->
  (forall s v, structured = JDict s -> dict_get "result" s = Some v ->
     fst (AgentMailClient.call_tool repr strip loads post request_id
            tool_name arguments) = AgentMailClient.Returned v) /\
  ((forall s, structured = JDict s -> dict_get "result" s = None) ->
   fst (AgentMailClient.call_tool repr strip loads post request_id
          tool_name arguments) = AgentMailClient.Returned structured).
Proof.
  intros Hp He Hr Hi Hs.
  unfold AgentMailClient.call_tool. rewrite Hp. cbn [fst].
  rewrite (tool_result_ok repr strip loads _ _ _ He Hr Hi), Hs.
  split.
  - intros s v -> Hv. now rewrite Hv.
  - intros Hnone. destruct structured; try reflexivity.
    now rewrite (Hnone fields eq_refl).
Qed.

Lemma structured_content_is_unwrapped_witness :
  let v := JDict [("ok", JBool true); ("value", JInt 123)] in
  let m := [("structuredContent", JDict [("result", v)]);
            ("content", JList [JDict [("text", JStr "[1, 2]")]])] in
  fst (Wire.call (Wire.envelope (JDict m))) = AgentMailClient.Returned v.
Proof.
  intros v m.
  apply (proj1 (structured_content_is_unwrapped Wire.repr Wire.strip
                  Wire.loads (Wire.answering (Wire.envelope (JDict m))) 0
                  "fetch_inbox" None (Wire.members (JDict m)) m
                  (JDict [("result", v)])
                  eq_refl eq_refl eq_refl eq_refl eq_refl)
           [("result", v)] v eq_refl eq_refl).
Defined.

(** X24.  Text content.  For a result without [isError] and without
    [structuredContent] whose [content] is a list that starts with an
    object: a missing or empty [text] gives the empty dict; a text that
    [json.loads] accepts gives the decoded value; any other text is
    returned as it is. *)
Theorem text_content_is_decoded repr strip loads post request_id tool_name
    arguments response m item rest :
  post (AgentMailClient.request (request_id + 1) tool_name arguments) =
    inr (JDict response) ->
  dict_get "error" response = None ->
  dict_get "result" response = Some (JDict m) ->
  truthy (default JNull (dict_get "isError" m)) = false ->
  dict_get "structuredContent" m = None ->
  dict_get "content" m = Some (JList (JDict item :: rest)) ->
  fst (AgentMailClient.call_tool repr strip loads post request_id tool_name
         arguments) =
  match default (JStr "") (dict_get "text" item) with
  | JStr t =>
      if String.eqb t "" then AgentMailClient.Returned (JDict [])
      else AgentMailClient.Returned (default (JStr t) (loads t))
  | text =>
      if truthy text
      then AgentMailClient.Raised (AgentMailClient.Python TypeError)
      else AgentMailClient.Returned (JDict [])
  end.
Proof.
  intros Hp He Hr Hi Hs Hc.
  unfold AgentMailClient.call_tool. rewrite Hp. cbn [fst].
  rewrite (tool_result_ok repr strip loads _ _ _ He Hr Hi), Hs, Hc.
  cbn [default from_option id truthy AgentMailClient.content_text
       AgentMailClient.py_first AgentMailClient.py_get mbind
       AgentMailClient.outcome_bind].
  destruct (default (JStr "") (dict_get "text" item)) as [|b|n|t|l|d];
    cbn [truthy negb]; try reflexivity.
  - now destruct b.
  - now destruct (n =? 0).
  - destruct (String.eqb t ""); cbn [negb]; [reflexivity|].
    now destruct (loads t).
  - now destruct l.
  - now destruct d.
Qed.

Lemma text_content_is_decoded_witness :
  let m t := [("content", JList [JDict [("text", JStr t)]])] in
  fst (Wire.call (Wire.envelope (JDict (m "[1, 2]"))))
    = AgentMailClient.Returned (JList [JInt 1; JInt 2]) /\
  fst (Wire.call (Wire.envelope (JDict (m "not json"))))
    = AgentMailClient.Returned (JStr "not json").
Proof.
  intros m. split.
  - exact (text_content_is_decoded Wire.repr Wire.strip Wire.loads
             (Wire.answering (Wire.envelope (JDict (m "[1, 2]")))) 0
             "fetch_inbox" None (Wire.members (JDict (m "[1, 2]")))
             (m "[1, 2]") [("text", JStr "[1, 2]")] []
             eq_refl eq_refl eq_refl eq_refl eq_refl eq_refl).
  - exact (text_content_is_decoded Wire.repr Wire.strip Wire.loads
             (Wire.answering (Wire.envelope (JDict (m "not json")))) 0
             "fetch_inbox" None (Wire.members (JDict (m "not json")))
             (m "not json") [("text", JStr "not json")] []
             eq_refl eq_refl eq_refl eq_refl eq_refl eq_refl).
Defined.

(** X25.  [_project_exists] is a best-effort check.  When listing the projects
    fails in any way it answers [True]; when the server returns a list
    of objects it answers [False] exactly when no project has the key as
    its [human_key] or as its [slug]. *)
Theorem project_check_is_best_effort project_key :
  (forall f,
     _project_exists (AgentMailClient.Raised f) project_key = Ok true) /\
  (forall projects,
     Forall (fun p => exists d, p = JDict d) projects ->
     exists b,
       _project_exists (AgentMailClient.Returned (JList projects)) project_key
         = Ok b /\
       (b = false <->
        forall d, In (JDict d) projects ->
                  dict_get "human_key" d <> Some (JStr project_key) /\
                  dict_get "slug" d <> Some (JStr project_key))).
Proof.
  split; [reflexivity|]. intros projects Hall. cbn [_project_exists].
  induction Hall as [|p rest [d ->] _ IH].
  - exists false. split; [reflexivity|]. split; [now intros _ d []|easy].
  - cbn [any_project].
    destruct (project_matches project_key d) eqn:Em.
    + exists true. split; [reflexivity|]. split; [discriminate|].
      intros Hno. destruct (Hno d (or_introl eq_refl)) as [Hk Hs].
      unfold project_matches in Em. apply orb_true_iff in Em.
      destruct Em as [Em | Em].
      * destruct (dict_get "human_key" d) as [[]|]; try discriminate.
        apply String.eqb_eq in Em. now subst.
      * destruct (dict_get "slug" d) as [[]|]; try discriminate.
        apply String.eqb_eq in Em. now subst.
    + destruct IH as (b & Eb & Hb). exists b. split; [exact Eb|].
      rewrite Hb. split.
      * intros Hrest d' [[= <-] | Hin]; [|now apply Hrest].
        unfold project_matches in Em. apply orb_false_iff in Em.
        destruct Em as [Ek Es]. split.
        -- intros Hk. rewrite Hk in Ek. now rewrite String.eqb_refl in Ek.
        -- intros Hs. rewrite Hs in Es. now rewrite String.eqb_refl in Es.
      * intros Hall' d' Hin. apply Hall'. now right.
Qed.

Lemma project_check_is_best_effort_witness :
  _project_exists
    (AgentMailClient.Raised
       (AgentMailClient.Python (TransportError "connection refused")))
    "/tmp/p" = Ok true /\
  exists b,
    _project_exists
      (AgentMailClient.Returned
         (JList [JDict [("slug", JStr "tmp-q"); ("human_key", JStr "/tmp/q")];
                 JDict [("slug", JStr "tmp-p"); ("human_key", JStr "/tmp/p")]]))
      "/tmp/p" = Ok b /\
    (b = false <->
     forall d,
       In (JDict d)
         [JDict [("slug", JStr "tmp-q"); ("human_key", JStr "/tmp/q")];
          JDict [("slug", JStr "tmp-p"); ("human_key", JStr "/tmp/p")]] ->
       dict_get "human_key" d <> Some (JStr "/tmp/p") /\
       dict_get "slug" d <> Some (JStr "/tmp/p")).
Proof.
  split.
  - apply (proj1 (project_check_is_best_effort "/tmp/p")).
  - apply (proj2 (project_check_is_best_effort "/tmp/p")).
    repeat constructor; eexists; reflexivity.
Defined.
